(** * django-request: the request log's admission filter, persistence router
      and query helpers

    A shallow embedding of [request/middleware.py], [request/managers.py] and
    [request/models.py].  Python objects become records, the module-level
    buffer, the database table and the shared cache become one explicit
    [World] that every operation threads, and Python exceptions become the
    [Raise] outcome of a small state-and-exception monad. *)

From Stdlib Require Import ZArith String Ascii List Bool Lia.
From stdpp Require Import base option list gmap strings fin_maps pretty.

Local Open Scope string_scope.
Local Open Scope list_scope.
Local Open Scope Z_scope.

(** ** Python strings *)

Module PyStr.

(** [str.lower()] on the ASCII letters. *)
Definition lower_ascii (c : ascii) : ascii :=
  let n := nat_of_ascii c in
  if (Nat.leb 65 n && Nat.leb n 90)%bool then ascii_of_nat (n + 32) else c.

Fixpoint lower (s : string) : string :=
  match s with
  | EmptyString => EmptyString
  | String c s' => String (lower_ascii c) (lower s')
  end.

(** [s.split(sep)] for a one-character separator: every occurrence cuts,
    empty pieces are kept, and the result is never the empty list. *)
Fixpoint split (sep : ascii) (s : string) : list string :=
  match s with
  | EmptyString => [EmptyString]
  | String c s' =>
      if Ascii.eqb c sep then EmptyString :: split sep s'
      else match split sep s' with
           | piece :: rest => String c piece :: rest
           | [] => [String c EmptyString]
           end
  end.

(** [sep.join(parts)]. *)
Definition join (sep : string) (parts : list string) : string :=
  String.concat sep parts.

(** [s[:n]]. *)
Definition take (n : nat) (s : string) : string := String.substring 0 n s.

(** [x in xs] for a tuple or list of strings. *)
Definition mem (x : string) (xs : list string) : bool :=
  existsb (String.eqb x) xs.

(** Truth value of an optional string argument: [None] and [''] are false. *)
Definition truthy (o : option string) : bool :=
  match o with
  | Some s => negb (String.eqb s EmptyString)
  | None => false
  end.

(** The character [c] does not occur in [s]. *)
Fixpoint free_of (c : ascii) (s : string) : bool :=
  match s with
  | EmptyString => true
  | String a s' => negb (Ascii.eqb a c) && free_of c s'
  end.

End PyStr.

(** ** Python values a setting may hold

    [REQUEST_USE_CACHE] is compared with [== True] in one place and tested
    for truth in another, so its value is kept as a Python value. *)

Inductive pyval :=
| PyNone
| PyBool (b : bool)
| PyInt (z : Z)
| PyStr (s : string).

(** [v == True]: [True] itself and the integer [1]. *)
Definition py_eq_True (v : pyval) : bool :=
  match v with
  | PyBool b => b
  | PyInt z => z =? 1
  | _ => false
  end.

(** [bool(v)]. *)
Definition py_truthy (v : pyval) : bool :=
  match v with
  | PyNone => false
  | PyBool b => b
  | PyInt z => negb (z =? 0)
  | PyStr s => negb (String.eqb s EmptyString)
  end.

(** ** Exceptions and outcomes *)

Inductive exn :=
| ValueError
| TypeError
| KeyError
| OverflowError
| DatabaseError.

Inductive result (A : Type) :=
| Return (a : A)
| Raise (e : exn).
Arguments Return {A} a.
Arguments Raise {A} e.

Definition result_bind {A B} (r : result A) (k : A -> result B) : result B :=
  match r with
  | Return a => k a
  | Raise e => Raise e
  end.

(** ** [request/settings.py]: the configuration *)

Record Settings := {
  REQUEST_VALID_METHOD_NAMES : list string;
  REQUEST_ONLY_ERRORS : bool;
  REQUEST_IGNORE_PATHS : list string;
  REQUEST_IGNORE_AJAX : bool;
  REQUEST_IGNORE_IP : list string;
  REQUEST_IGNORE_USERNAME : list string;
  REQUEST_USE_CACHE : pyval;
  REQUEST_CACHE_PREFIX : string;
  REQUEST_BUFFER_SIZE : Z;
  REQUEST_LOG_IP : bool;
  REQUEST_IP_DUMMY : string;
  REQUEST_ANONYMOUS_IP : bool;
  REQUEST_LOG_USER : bool
}.

(** ** The framework's request and response objects *)

(** [django.contrib.auth]: what the code reads of [request.user].  The
    anonymous user has [is_authenticated = false]. *)
Record AuthUser := {
  pk : Z;
  username : string;
  is_authenticated : bool
}.

Module HttpRequest.
Record t := {
  method : string;
  path : string;
  is_secure : bool;
  is_ajax : bool;
  (** [request.META], a dict of strings *)
  META : gmap string string;
  (** [None]: no [session] attribute; [Some k]: [session.session_key = k] *)
  session : option (option string);
  (** [None]: no [user] attribute *)
  user : option AuthUser
}.
End HttpRequest.

Module HttpResponse.
Record t := {
  status_code : Z;
  (** the headers read with [response[name]] *)
  headers : gmap string string
}.

(** [response[name]]: [KeyError] when the header is not set. *)
Definition getitem (response : t) (name : string) : result string :=
  match headers response !! name with
  | Some v => Return v
  | None => Raise KeyError
  end.
End HttpResponse.

(** ** [request.models.Request] *)

Record Request := {
  response : Z;
  method : string;
  path : string;
  (** microseconds since 0001-01-01T00:00:00 UTC; [None] until set *)
  time : option Z;
  is_secure : bool;
  is_ajax : bool;
  ip : string;
  (** the foreign key to the user table *)
  user : option Z;
  referer : option string;
  user_agent : option string;
  language : option string;
  session_key : option string;
  (** the instance attribute [from_http_request] sets on a redirect *)
  redirect : option string
}.

(** [Request()]: every field at its declared default. *)
Definition new_Request : Request :=
  {| response := 200; method := "GET"; path := EmptyString; time := None;
     is_secure := false; is_ajax := false; ip := EmptyString; user := None;
     referer := None; user_agent := None; language := None;
     session_key := None; redirect := None |}.

Definition set_ip (v : string) (r : Request) : Request :=
  {| response := response r; method := method r; path := path r;
     time := time r; is_secure := is_secure r; is_ajax := is_ajax r;
     ip := v; user := user r; referer := referer r;
     user_agent := user_agent r; language := language r;
     session_key := session_key r; redirect := redirect r |}.

Definition set_user (v : option Z) (r : Request) : Request :=
  {| response := response r; method := method r; path := path r;
     time := time r; is_secure := is_secure r; is_ajax := is_ajax r;
     ip := ip r; user := v; referer := referer r;
     user_agent := user_agent r; language := language r;
     session_key := session_key r; redirect := redirect r |}.

Definition set_response (v : Z) (r : Request) : Request :=
  {| response := v; method := method r; path := path r;
     time := time r; is_secure := is_secure r; is_ajax := is_ajax r;
     ip := ip r; user := user r; referer := referer r;
     user_agent := user_agent r; language := language r;
     session_key := session_key r; redirect := redirect r |}.

Definition set_redirect (v : option string) (r : Request) : Request :=
  {| response := response r; method := method r; path := path r;
     time := time r; is_secure := is_secure r; is_ajax := is_ajax r;
     ip := ip r; user := user r; referer := referer r;
     user_agent := user_agent r; language := language r;
     session_key := session_key r; redirect := v |}.

(** ** The world the router acts on *)

(** What the router asked of its collaborators, oldest first.  [ok] tells
    whether the database accepted the write. *)
Inductive Event :=
| EvSave (row : Request) (ok : bool)
| EvBulkCreate (rows : list Request) (ok : bool)
| EvCacheSet (key : string) (value : Request) (timeout : Z)
| EvCacheDeletePattern (pattern : string).

Record World := {
  (** [settings.REQUEST_BUFFER], the module-level list *)
  REQUEST_BUFFER : list Request;
  (** the rows of the request table, in insertion order *)
  table : list Request;
  (** the shared cache: key to value and the timeout it was set with *)
  cache : gmap string (Request * Z);
  trace : list Event
}.

Definition empty_world : World :=
  {| REQUEST_BUFFER := []; table := []; cache := ∅; trace := [] |}.

(** What the outside supplies to one call: the clock, the entropy the cache
    key is derived from, and whether the database accepts a write. *)
Record Env := {
  now : Z;
  nonce : Z;
  db_up : bool
}.

(** State and exceptions: a call maps the world to an outcome and the world
    it leaves, also when it raises. *)
Definition M (A : Type) : Type := World -> result A * World.

Definition ret {A} (a : A) : M A := fun w => (Return a, w).

Definition raise {A} (e : exn) : M A := fun w => (Raise e, w).

Definition bind {A B} (m : M A) (k : A -> M B) : M B :=
  fun w =>
    match m w with
    | (Return a, w') => k a w'
    | (Raise e, w') => (Raise e, w')
    end.

(** [try: m / except: pass] with a bare [except]. *)
Definition try_pass {A} (m : M A) : M unit :=
  fun w => (Return tt, snd (m w)).

Definition lift {A} (r : result A) : M A := fun w => (r, w).

Notation "x <- m ;; k" := (bind m (fun x => k))
  (at level 100, m at next level, right associativity).
Notation "m ;;; k" := (bind m (fun _ => k))
  (at level 100, right associativity).

Definition log (e : Event) : M unit :=
  fun w => (Return tt,
            {| REQUEST_BUFFER := REQUEST_BUFFER w; table := table w;
               cache := cache w; trace := trace w ++ [e] |}).

Definition insert_rows (rows : list Request) : M unit :=
  fun w => (Return tt,
            {| REQUEST_BUFFER := REQUEST_BUFFER w; table := table w ++ rows;
               cache := cache w; trace := trace w |}).

Definition get_buffer : M (list Request) :=
  fun w => (Return (REQUEST_BUFFER w), w).

Definition set_buffer (b : list Request) : M unit :=
  fun w => (Return tt,
            {| REQUEST_BUFFER := b; table := table w;
               cache := cache w; trace := trace w |}).

Definition get_cache : M (gmap string (Request * Z)) :=
  fun w => (Return (cache w), w).

Definition set_cache (c : gmap string (Request * Z)) : M unit :=
  fun w => (Return tt,
            {| REQUEST_BUFFER := REQUEST_BUFFER w; table := table w;
               cache := c; trace := trace w |}).

(** ** The storage collaborator (Django's ORM) *)

(** [models.Model.save]: one INSERT of the object as it stands.  A refused
    INSERT raises and leaves the table as it was. *)
Definition Model_save (self : Request) (up : bool) : M unit :=
  log (EvSave self up) ;;;
  if up then insert_rows [self] else raise DatabaseError.

(** [QuerySet.bulk_create]: returns at once on an empty list; otherwise one
    INSERT of all the objects as they stand, which either stores them all or
    raises and stores none.  It does not call the objects' [save]. *)
Definition bulk_create (objs : list Request) (up : bool) : M (list Request) :=
  match objs with
  | [] => ret objs
  | _ =>
      log (EvBulkCreate objs up) ;;;
      if up then (insert_rows objs ;;; ret objs) else raise DatabaseError
  end.

(** ** The cache collaborator *)

Section Cache.

(** [key_matches pattern key]: the cache's glob match, shared by [keys] and
    [delete_pattern]. *)
Variable key_matches : string -> string -> bool.

(** [cache.set(key, value, timeout=timeout)]. *)
Definition cache_set (key : string) (value : Request) (timeout : Z) : M unit :=
  log (EvCacheSet key value timeout) ;;;
  c <- get_cache ;;
  set_cache (<[key := (value, timeout)]> c).

(** [cache.keys(pattern)]. *)
Definition cache_keys (pattern : string) : M (list string) :=
  c <- get_cache ;;
  ret (filter (fun k => key_matches pattern k = true) (map_to_list c).*1).

(** [cache.get_many(keys)]: the dict of the keys that are set. *)
Definition cache_get_many (keys : list string) : M (gmap string Request) :=
  c <- get_cache ;;
  ret (list_to_map (omap (fun k => (fun e => (k, fst e)) <$> c !! k) keys)).

(** [cache.delete_pattern(pattern)]. *)
Definition cache_delete_pattern (pattern : string) : M unit :=
  log (EvCacheDeletePattern pattern) ;;;
  c <- get_cache ;;
  set_cache (filter (fun kv => key_matches pattern (fst kv) = false) c).

(** [d.values()]. *)
Definition dict_values (d : gmap string Request) : list Request :=
  (map_to_list d).*2.

(** What [keys], [get_many] and [values] hand on, in that order, from the
    cache [c]: the list [persist_cached] calls [requests]. *)
Definition cached_values (pattern : string) (c : gmap string (Request * Z))
    : list Request :=
  dict_values
    (list_to_map
       (omap (fun k => (fun e => (k, fst e)) <$> c !! k)
          (filter (fun k => key_matches pattern k = true) (map_to_list c).*1))).

End Cache.

(** ** [request/models.py] and [request/managers.py] *)

Section Router.

Variable settings : Settings.

(** [request.utils.get_client_ip]. *)
Variable get_client_ip : HttpRequest.t -> string.

(** [request.utils.request_cache_key], with the entropy it draws. *)
Variable request_cache_key : Z -> Request -> string.

(** [request.router.patterns(False, *paths).resolve(path)], as a truth value. *)
Variable patterns_resolve : list string -> string -> bool.

Variable key_matches : string -> string -> bool.

(** *** [Request.from_http_request] (models.py 55-80) *)

Definition META_get (request : HttpRequest.t) (name : string) : string :=
  default EmptyString (HttpRequest.META request !! name).

Definition from_http_request (self : Request) (clock : Z)
    (request : HttpRequest.t) (resp : option HttpResponse.t) : result Request :=
  let self :=
    {| response := response self;
       method := HttpRequest.method request;
       path := HttpRequest.path request;
       time := Some clock;
       is_secure := HttpRequest.is_secure request;
       is_ajax := HttpRequest.is_ajax request;
       ip := get_client_ip request;
       user := user self;
       referer := Some (PyStr.take 255 (META_get request "HTTP_REFERER"));
       user_agent := Some (PyStr.take 255 (META_get request "HTTP_USER_AGENT"));
       language := Some (PyStr.take 255 (META_get request "HTTP_ACCEPT_LANGUAGE"));
       session_key := match HttpRequest.session request with
                      | Some key => key
                      | None => session_key self
                      end;
       redirect := redirect self |} in
  let self :=
    match HttpRequest.user request with
    | Some u => if is_authenticated u then set_user (Some (pk u)) self else self
    | None => self
    end in
  match resp with
  | Some resp =>
      let self := set_response (HttpResponse.status_code resp) self in
      if (HttpResponse.status_code resp =? 301)
         || (HttpResponse.status_code resp =? 302)
      then result_bind (HttpResponse.getitem resp "Location")
             (fun location => Return (set_redirect (Some location) self))
      else Return self
  | None => Return self
  end.

(** *** [Request.save] (models.py 149-159)

    The class defines [save] twice; the later definition is the method. *)

(** Lines 153-155: [parts = ip.split('.')[0:-1]; parts.append('1');
    '.'.join(parts)]. *)
Definition anonymous_ip (addr : string) : string :=
  PyStr.join "." (removelast (PyStr.split "." addr) ++ ["1"]).

(** Lines 150-155: what [save] leaves in [self.ip]. *)
Definition save_ip (addr : string) : string :=
  if negb (REQUEST_LOG_IP settings) then REQUEST_IP_DUMMY settings
  else if REQUEST_ANONYMOUS_IP settings then anonymous_ip addr
  else addr.

(** Lines 156-157: what [save] leaves in [self.user]. *)
Definition save_user (u : option Z) : option Z :=
  if negb (REQUEST_LOG_USER settings) then None else u.

Definition save (self : Request) (up : bool) : M unit :=
  let self := set_ip (save_ip (ip self)) self in
  let self := set_user (save_user (user self)) self in
  Model_save self up.

(** *** [RequestManager.create_from_http_request] (managers.py 132-151) *)

Definition create_from_http_request (env : Env) (request : HttpRequest.t)
    (resp : option HttpResponse.t) (commit : bool) : M unit :=
  r <- lift (from_http_request new_Request (now env) request resp) ;;
  if commit then
    if py_eq_True (REQUEST_USE_CACHE settings) then
      let cache_key := request_cache_key (nonce env) r in
      cache_set cache_key r 0
    else if REQUEST_BUFFER_SIZE settings =? 0 then
      save r (db_up env)
    else
      buffer <- get_buffer ;;
      set_buffer (buffer ++ [r]) ;;;
      buffer <- get_buffer ;;
      if Z.of_nat (length buffer) >? REQUEST_BUFFER_SIZE settings then
        try_pass (bulk_create buffer (db_up env)) ;;;
        set_buffer []
      else ret tt
  else ret tt.

(** *** [RequestManager.persist_cached] (managers.py 153-176) *)

(** Lines 162-163: the pattern given, or the prefix followed by a star. *)
Definition cache_pattern_or_default (cache_pattern : option string) : string :=
  if PyStr.truthy cache_pattern then default EmptyString cache_pattern
  else REQUEST_CACHE_PREFIX settings +:+ "*".

Definition persist_cached (cache_pattern : option string) (up : bool)
    : M (list Request) :=
  if py_truthy (REQUEST_USE_CACHE settings) then
    let cache_pattern := cache_pattern_or_default cache_pattern in
    requests_keys <- cache_keys key_matches cache_pattern ;;
    requests_dict <- cache_get_many requests_keys ;;
    let requests := dict_values requests_dict in
    created <- bulk_create requests up ;;
    cache_delete_pattern key_matches cache_pattern ;;;
    ret created
  else ret [].

(** *** [RequestMiddleware.process_response] (middleware.py 12-34) *)

Definition process_response (env : Env) (request : HttpRequest.t)
    (resp : HttpResponse.t) : M HttpResponse.t :=
  if negb (PyStr.mem (PyStr.lower (HttpRequest.method request))
             (REQUEST_VALID_METHOD_NAMES settings))
  then ret resp
  else if (HttpResponse.status_code resp <? 400) && REQUEST_ONLY_ERRORS settings
  then ret resp
  else if patterns_resolve (REQUEST_IGNORE_PATHS settings) (HttpRequest.path request)
  then ret resp
  else if HttpRequest.is_ajax request && REQUEST_IGNORE_AJAX settings
  then ret resp
  else if match HttpRequest.META request !! "REMOTE_ADDR" with
          | Some addr => PyStr.mem addr (REQUEST_IGNORE_IP settings)
          | None => false
          end
  then ret resp
  else if match HttpRequest.user request with
          | Some u => PyStr.mem (username u) (REQUEST_IGNORE_USERNAME settings)
          | None => false
          end
  then ret resp
  else
    create_from_http_request env request (Some resp) true ;;;
    ret resp.

End Router.

(** ** Dates and times, as far as the query layer needs them *)

Module datetime.

Definition usec_per_day : Z := 86400000000.

(** The ordinal of 9999-12-31, the last day a date can hold. *)
Definition max_ordinal : Z := 3652059.

Definition is_leap (y : Z) : bool :=
  (y mod 4 =? 0) && (negb (y mod 100 =? 0) || (y mod 400 =? 0)).

(** [calendar.monthrange(y, m)[1]]. *)
Definition days_in_month (y m : Z) : Z :=
  if m =? 2 then (if is_leap y then 29 else 28)
  else if (m =? 4) || (m =? 6) || (m =? 9) || (m =? 11) then 30
  else 31.

Definition days_before_year (y : Z) : Z :=
  let p := y - 1 in p * 365 + p / 4 - p / 100 + p / 400.

Definition days_before_month (y m : Z) : Z :=
  fold_right (fun k acc => days_in_month y k + acc) 0 (seqZ 1 (m - 1)).

(** [date.toordinal()]: 0001-01-01 is day 1. *)
Definition ymd2ord (y m d : Z) : Z :=
  days_before_year y + days_before_month y m + d.

(** A [date] or a [datetime]: for a plain date [usec] is 0. *)
Record t := {
  year : Z;
  month : Z;
  day : Z;
  (** microseconds since midnight *)
  usec : Z
}.

Definition toordinal (d : t) : Z := ymd2ord (year d) (month d) (day d).

(** Microseconds since 0001-01-01T00:00:00, the scale of [Request.time]. *)
Definition timestamp (d : t) : Z := (toordinal d - 1) * usec_per_day + usec d.

(** [datetime.date(y, m, d)]. *)
Definition date (y m d : Z) : result t :=
  if (1 <=? y) && (y <=? 9999) && (1 <=? m) && (m <=? 12)
     && (1 <=? d) && (d <=? days_in_month y m)
  then Return {| year := y; month := m; day := d; usec := 0 |}
  else Raise ValueError.

(** [d.replace(day=n)]. *)
Definition replace_day (n : Z) (d : t) : t :=
  {| year := year d; month := month d; day := n; usec := usec d |}.

(** [d + datetime.timedelta(1)], as a timestamp. *)
Definition plus_one_day (d : t) : result Z :=
  if toordinal d + 1 >? max_ordinal then Raise OverflowError
  else Return (timestamp d + usec_per_day).

(** [datetime.combine(d, time.min)] and [datetime.combine(d, time.max)]. *)
Definition combine_min (d : t) : Z := (toordinal d - 1) * usec_per_day.
Definition combine_max (d : t) : Z :=
  (toordinal d - 1) * usec_per_day + (usec_per_day - 1).

Definition timedelta_keys : list string :=
  ["days"; "seconds"; "microseconds"; "milliseconds"; "minutes"; "hours";
   "weeks"].

(** [datetime.timedelta] on the keyword arguments [options], all integers, in microseconds:
    an unknown keyword is a [TypeError], more than 999999999 days either way
    an [OverflowError]. *)
Definition timedelta (options : gmap string Z) : result Z :=
  if forallb (fun k => PyStr.mem k timedelta_keys) (map_to_list options).*1 then
    let arg k := default 0 (options !! k) in
    let total :=
      arg "days" * usec_per_day + arg "seconds" * 1000000
      + arg "microseconds" + arg "milliseconds" * 1000
      + arg "minutes" * 60000000 + arg "hours" * 3600000000
      + arg "weeks" * (7 * usec_per_day) in
    if (-999999999 <=? total / usec_per_day)
       && (total / usec_per_day <=? 999999999)
    then Return total
    else Raise OverflowError
  else Raise TypeError.

(** [clock - delta] for a datetime [clock]. *)
Definition sub (clock delta : Z) : result Z :=
  if (0 <=? clock - delta) && (clock - delta <? max_ordinal * usec_per_day)
  then Return (clock - delta)
  else Raise OverflowError.

End datetime.

(** ** [RequestQuerySet] and the manager's reads (managers.py 21-130) *)

(** A query set, as the rows it selects. *)
Definition QuerySet : Type := list Request.

(** [self.filter(time__gte=lo, time__lt=hi)]. *)
Definition filter_time_gte_lt (lo hi : Z) (self : QuerySet) : QuerySet :=
  List.filter (fun r => match time r with
                        | Some t => (lo <=? t) && (t <? hi)
                        | None => false
                        end) self.

(** [self.filter(time__range=(lo, hi))]. *)
Definition filter_time_range (lo hi : Z) (self : QuerySet) : QuerySet :=
  List.filter (fun r => match time r with
                        | Some t => (lo <=? t) && (t <=? hi)
                        | None => false
                        end) self.

(** [self.filter(time__gte=lo)]. *)
Definition filter_time_gte (lo : Z) (self : QuerySet) : QuerySet :=
  List.filter (fun r => match time r with
                        | Some t => lo <=? t
                        | None => false
                        end) self.

(** [self.filter(user__isnull=False)]. *)
Definition filter_user_notnull (self : QuerySet) : QuerySet :=
  List.filter (fun r => match user r with Some _ => true | None => false end)
    self.

(** [try: ... except ValueError: return]: a [ValueError] becomes the return
    value [None]; any other exception goes on to the caller. *)
Definition except_ValueError_return {A B} (r : result A)
    (k : A -> result (option B)) : result (option B) :=
  match r with
  | Return a => k a
  | Raise ValueError => Return None
  | Raise e => Raise e
  end.

Module RequestQuerySet.

Section Periods.

(** [time.strptime(string, format)[:3]]; [None] stands for its [ValueError]. *)
Variable strptime : string -> string -> option (Z * Z * Z).

Definition strptime_date (text format : string) : result (Z * Z * Z) :=
  match strptime text format with
  | Some ymd => Return ymd
  | None => Raise ValueError
  end.

(** Lines 35-46 of [month]. *)
Definition month_range (self : QuerySet) (date : datetime.t)
    : result (option QuerySet) :=
  let number_days :=
    datetime.days_in_month (datetime.year date) (datetime.month date) in
  let first_day := datetime.timestamp (datetime.replace_day 1 date) in
  result_bind (datetime.plus_one_day (datetime.replace_day number_days date))
    (fun last_day => Return (Some (filter_time_gte_lt first_day last_day self))).

Definition month (self : QuerySet) (year month : option string)
    (month_format : string) (date : option datetime.t)
    : result (option QuerySet) :=
  match date with
  | Some date => month_range self date
  | None =>
      if PyStr.truthy year && PyStr.truthy month then
        except_ValueError_return
          (result_bind
             (strptime_date
                (default EmptyString year +:+ default EmptyString month)
                ("%Y" +:+ month_format))
             (fun '(y, m, d) => datetime.date y m d))
          (month_range self)
      else Raise TypeError
  end.

(** [week]: [date.replace] has no [tzinfo] keyword, so once the date is
    built line 50 raises [TypeError], which [except ValueError] lets pass. *)
Definition week (self : QuerySet) (year week : string)
    : result (option QuerySet) :=
  except_ValueError_return
    (result_bind
       (result_bind (strptime_date (year +:+ "-0-" +:+ week) "%Y-%w-%U")
          (fun '(y, m, d) => datetime.date y m d))
       (fun _ : datetime.t => Raise TypeError))
    (fun date : datetime.t =>
       Return (Some (filter_time_gte_lt (datetime.timestamp date)
                       (datetime.timestamp date + 7 * datetime.usec_per_day)
                       self))).

(** [day]: line 68 calls the method descriptor [datetime.datetime.date] on
    three integers, a [TypeError] once [strptime] has parsed. *)
Definition day (self : QuerySet) (year month day : option string)
    (month_format day_format : string) (date : option datetime.t)
    : result (option QuerySet) :=
  let range (date : datetime.t) :=
    Return (Some (filter_time_range (datetime.combine_min date)
                    (datetime.combine_max date) self)) in
  match date with
  | Some date => range date
  | None =>
      if PyStr.truthy year && PyStr.truthy month && PyStr.truthy day then
        except_ValueError_return
          (result_bind
             (strptime_date
                (default EmptyString year +:+ default EmptyString month
                 +:+ default EmptyString day)
                ("%Y" +:+ month_format +:+ day_format))
             (fun _ : Z * Z * Z => Raise TypeError))
          range
      else Raise TypeError
  end.

End Periods.

End RequestQuerySet.

(** [RequestManager.active_users] with keyword arguments [options], over the
    rows of the table. *)
Definition active_users (self : QuerySet) (clock : Z) (options : gmap string Z)
    : result (gset (option Z)) :=
  let qs := filter_user_notnull self in
  result_bind
    (if bool_decide (options = ∅) then Return qs
     else
       result_bind (datetime.timedelta options) (fun delta =>
       result_bind (datetime.sub clock delta) (fun time =>
       Return (filter_time_gte time qs))))
    (fun requests => Return (list_to_set (user <$> requests))).

(** ** Concrete configurations, collaborators and exchanges for the examples *)

Module Examples.

Definition example_settings (use_cache : pyval) (buffer_size : Z)
    (log_ip anonymous log_user : bool) : Settings :=
  {| REQUEST_VALID_METHOD_NAMES :=
       ["get"; "post"; "put"; "delete"; "head"; "options"; "trace"];
     REQUEST_ONLY_ERRORS := false;
     REQUEST_IGNORE_PATHS := ["/admin/"];
     REQUEST_IGNORE_AJAX := false;
     REQUEST_IGNORE_IP := ["10.0.0.1"];
     REQUEST_IGNORE_USERNAME := ["root"];
     REQUEST_USE_CACHE := use_cache;
     REQUEST_CACHE_PREFIX := "request_";
     REQUEST_BUFFER_SIZE := buffer_size;
     REQUEST_LOG_IP := log_ip;
     REQUEST_IP_DUMMY := "1.1.1.1";
     REQUEST_ANONYMOUS_IP := anonymous;
     REQUEST_LOG_USER := log_user |}.

Definition immediate : Settings :=
  example_settings (PyBool false) 0 true false true.

Definition buffered (threshold : Z) : Settings :=
  example_settings (PyBool false) threshold true false true.

Definition buffered_no_ip (threshold : Z) : Settings :=
  example_settings (PyBool false) threshold false false true.

(** Buffered with threshold 1, and told to log neither IPs nor users. *)
Definition buffered_private : Settings :=
  example_settings (PyBool false) 1 false true false.

Definition cached : Settings :=
  example_settings (PyBool true) 5 true false true.

Definition anonymising : Settings :=
  example_settings (PyBool false) 0 true true true.

(** Stand-ins for the collaborators that are not part of the three files. *)

Definition get_client_ip (request : HttpRequest.t) : string :=
  META_get request "REMOTE_ADDR".

Definition request_cache_key (entropy : Z) (r : Request) : string :=
  "request_" +:+ path r +:+ "_"
  +:+ String (ascii_of_nat (48 + Z.to_nat (entropy mod 10))) EmptyString.

Definition patterns_resolve (paths : list string) (path : string) : bool :=
  existsb (fun p => String.prefix p path) paths.

(** A glob in which only a final star is a wildcard. *)
Fixpoint key_matches (pattern key : string) : bool :=
  match pattern with
  | EmptyString => String.eqb key EmptyString
  | String c rest =>
      if Ascii.eqb c "*" && String.eqb rest EmptyString then true
      else match key with
           | String d key' => Ascii.eqb c d && key_matches rest key'
           | EmptyString => false
           end
  end.

(** A parser that knows one date and rejects everything else. *)
Definition strptime (text format : string) : option (Z * Z * Z) :=
  if String.eqb text "2021Jan" && String.eqb format "%Y%b"
  then Some (2021, 1, 1) else None.

Definition get (path addr : string) : HttpRequest.t :=
  {| HttpRequest.method := "GET";
     HttpRequest.path := path;
     HttpRequest.is_secure := false;
     HttpRequest.is_ajax := false;
     HttpRequest.META := {[ "REMOTE_ADDR" := addr ]};
     HttpRequest.session := None;
     HttpRequest.user := None |}.

(** The same request made by the logged-in user 7, [alice]. *)
Definition get_as_alice (path addr : string) : HttpRequest.t :=
  {| HttpRequest.method := "GET";
     HttpRequest.path := path;
     HttpRequest.is_secure := false;
     HttpRequest.is_ajax := false;
     HttpRequest.META := {[ "REMOTE_ADDR" := addr ]};
     HttpRequest.session := None;
     HttpRequest.user :=
       Some {| pk := 7; username := "alice"; is_authenticated := true |} |}.

Definition ok_response : HttpResponse.t :=
  {| HttpResponse.status_code := 200; HttpResponse.headers := ∅ |}.

(** A world whose cache holds one record under the default prefix. *)
Definition one_cached (r : Request) : World :=
  {| REQUEST_BUFFER := []; table := [];
     cache := {[ "request_/a_0" := (r, 0) ]}; trace := [] |}.

Definition env_at (clock : Z) (up : bool) : Env :=
  {| now := clock; nonce := clock; db_up := up |}.

(** The record [from_http_request] builds for [get path addr] answered by
    [ok_response] at time [clock]. *)
Definition record (path addr : string) (clock : Z) : Request :=
  {| response := 200; method := "GET"; path := path; time := Some clock;
     is_secure := false; is_ajax := false; ip := addr; user := None;
     referer := Some EmptyString; user_agent := Some EmptyString;
     language := Some EmptyString; session_key := None; redirect := None |}.

End Examples.

(** A run of [create_from_http_request] calls, each with what the outside
    supplied to it; the world a call leaves is the world the next one finds. *)
Definition Call : Type := Env * HttpRequest.t * option HttpResponse.t.

Definition submit_all (settings : Settings)
    (get_client_ip : HttpRequest.t -> string)
    (request_cache_key : Z -> Request -> string)
    (calls : list Call) (w : World) : World :=
  fold_left
    (fun w '(env, request, resp) =>
       snd (create_from_http_request settings get_client_ip request_cache_key
              env request resp true w))
    calls w.

(** The call builds the record [r]: its [from_http_request] returns [r]. *)
Definition builds (get_client_ip : HttpRequest.t -> string)
    (c : Call) (r : Request) : Prop :=
  from_http_request get_client_ip new_Request (now c.1.1) c.1.2 c.2 = Return r.

(** ** The admission rules

    Six rules over the exchange: its method in lower case, its status, its
    path, its AJAX flag, the [REMOTE_ADDR] entry of its [META] if there is
    one, and the user name of its user.  Rule 6 is written twice: as the
    middleware tests it, on the [user] attribute whether or not that user
    is authenticated, and as the specification words it, on an
    authenticated user only. *)

Section AdmissionRules.

Variable settings : Settings.
Variable patterns_resolve : list string -> string -> bool.
Variable request : HttpRequest.t.
Variable resp : HttpResponse.t.

Definition rule_method : bool :=
  negb (PyStr.mem (PyStr.lower (HttpRequest.method request))
          (REQUEST_VALID_METHOD_NAMES settings)).

Definition rule_only_errors : bool :=
  REQUEST_ONLY_ERRORS settings && (HttpResponse.status_code resp <? 400).

Definition rule_path : bool :=
  patterns_resolve (REQUEST_IGNORE_PATHS settings) (HttpRequest.path request).

Definition rule_ajax : bool :=
  HttpRequest.is_ajax request && REQUEST_IGNORE_AJAX settings.

Definition rule_ip : bool :=
  match HttpRequest.META request !! "REMOTE_ADDR" with
  | Some addr => PyStr.mem addr (REQUEST_IGNORE_IP settings)
  | None => false
  end.

(** Rule 6 of the middleware (lines 28-30): the request has a [user]
    attribute, authenticated or not, whose name is to be ignored. *)
Definition rule_username : bool :=
  match HttpRequest.user request with
  | Some u => PyStr.mem (username u) (REQUEST_IGNORE_USERNAME settings)
  | None => false
  end.

(** Rule 6 in the words of the specification: the request has an
    authenticated user whose name is to be ignored. *)
Definition rule_authenticated_username : bool :=
  match HttpRequest.user request with
  | Some u =>
      is_authenticated u
      && PyStr.mem (username u) (REQUEST_IGNORE_USERNAME settings)
  | None => false
  end.

(** The first rule that matches rejects; rule 6 as the middleware has it. *)
Definition rejected : bool :=
  rule_method || rule_only_errors || rule_path || rule_ajax || rule_ip
  || rule_username.

(** The same, with rule 6 in the words of the specification. *)
Definition rejected_as_specified : bool :=
  rule_method || rule_only_errors || rule_path || rule_ajax || rule_ip
  || rule_authenticated_username.

End AdmissionRules.

(** The response is a 301 or a 302 and has no [Location] header, the one
    response [from_http_request] cannot build a record from. *)
Definition redirect_without_location (resp : HttpResponse.t) : bool :=
  ((HttpResponse.status_code resp =? 301)
   || (HttpResponse.status_code resp =? 302))
  && match HttpResponse.headers resp !! "Location" with
     | Some _ => false
     | None => true
     end.

(** ** The rest of [request/models.py] and [request/managers.py] *)

(** *** [Request.create_from_http_request], the class method
    (models.py 82-98): the manager's method without the cache branch. *)
Definition Request_create_from_http_request (settings : Settings)
    (get_client_ip : HttpRequest.t -> string) (env : Env)
    (request : HttpRequest.t) (resp : option HttpResponse.t) (commit : bool)
    : M unit :=
  r <- lift (from_http_request get_client_ip new_Request (now env) request resp) ;;
  if commit then
    if REQUEST_BUFFER_SIZE settings =? 0 then
      save settings r (db_up env)
    else
      buffer <- get_buffer ;;
      set_buffer (buffer ++ [r]) ;;;
      buffer <- get_buffer ;;
      if Z.of_nat (length buffer) >? REQUEST_BUFFER_SIZE settings then
        try_pass (bulk_create buffer (db_up env)) ;;;
        set_buffer []
      else ret tt
  else ret tt.

(** The settings with [REQUEST_USE_CACHE] set to [False]. *)
Definition without_cache (settings : Settings) : Settings :=
  {| REQUEST_VALID_METHOD_NAMES := REQUEST_VALID_METHOD_NAMES settings;
     REQUEST_ONLY_ERRORS := REQUEST_ONLY_ERRORS settings;
     REQUEST_IGNORE_PATHS := REQUEST_IGNORE_PATHS settings;
     REQUEST_IGNORE_AJAX := REQUEST_IGNORE_AJAX settings;
     REQUEST_IGNORE_IP := REQUEST_IGNORE_IP settings;
     REQUEST_IGNORE_USERNAME := REQUEST_IGNORE_USERNAME settings;
     REQUEST_USE_CACHE := PyBool false;
     REQUEST_CACHE_PREFIX := REQUEST_CACHE_PREFIX settings;
     REQUEST_BUFFER_SIZE := REQUEST_BUFFER_SIZE settings;
     REQUEST_LOG_IP := REQUEST_LOG_IP settings;
     REQUEST_IP_DUMMY := REQUEST_IP_DUMMY settings;
     REQUEST_ANONYMOUS_IP := REQUEST_ANONYMOUS_IP settings;
     REQUEST_LOG_USER := REQUEST_LOG_USER settings |}.

(** The row [save] hands to the database for the record [r]. *)
Definition persisted_row (settings : Settings) (r : Request) : Request :=
  set_user (save_user settings (user r))
    (set_ip (save_ip settings (ip r)) r).

(** *** [Request.keywords] (models.py 131-139) *)

Section Keywords.

(** [request.utils.engines.resolve]: nothing, or the engine with the dict
    its [keywords] entry is read from. *)
Variable engines_resolve : string -> option (string * gmap string string).

(** [memo] is the instance attribute [_keywords]: [None] while it is not
    set.  The property returns its value and leaves the attribute. *)
Definition keywords (referer : option string)
    (memo : option (option (string * gmap string string)))
    : result (option string) * option (option (string * gmap string string)) :=
  if negb (PyStr.truthy referer) then (Return None, memo)
  else
    let found :=
      match memo with
      | Some found => found
      | None => engines_resolve (default EmptyString referer)
      end in
    match found with
    | Some (_, info) =>
        match info !! "keywords" with
        | Some words =>
            (Return (Some (PyStr.join " " (PyStr.split "+" words))), Some found)
        | None => (Raise KeyError, Some found)
        end
    | None => (Return None, Some found)
    end.

End Keywords.

(** The first day of the month after [d]'s, at [d]'s time of day. *)
Definition first_of_next_month (d : datetime.t) : datetime.t :=
  if datetime.month d =? 12
  then {| datetime.year := datetime.year d + 1; datetime.month := 1;
          datetime.day := 1; datetime.usec := datetime.usec d |}
  else {| datetime.year := datetime.year d;
          datetime.month := datetime.month d + 1;
          datetime.day := 1; datetime.usec := datetime.usec d |}.

(** *** The conveniences of [RequestQuerySet] (managers.py 22-23, 78-89) *)

Module Conveniences.

(** [self.filter(time__year=year)]: from the first microsecond of the year
    to its last. *)
Definition year (self : QuerySet) (year : Z) : QuerySet :=
  filter_time_range
    ((datetime.ymd2ord year 1 1 - 1) * datetime.usec_per_day)
    ((datetime.ymd2ord year 12 31 - 1) * datetime.usec_per_day
     + (datetime.usec_per_day - 1))
    self.

Section Now.

Variable strptime : string -> string -> option (Z * Z * Z).

(** [d.isocalendar()[1]], the ISO week number. *)
Variable isocalendar_week : datetime.t -> Z.

(** [utcnow] is the clock reading [datetime.datetime.utcnow()], made aware. *)
Variable utcnow : datetime.t.

Definition today (self : QuerySet) : result (option QuerySet) :=
  RequestQuerySet.day strptime self None None None "%b" "%d" (Some utcnow).

Definition this_year (self : QuerySet) : QuerySet :=
  year self (datetime.year utcnow).

Definition this_month (self : QuerySet) : result (option QuerySet) :=
  RequestQuerySet.month strptime self None None "%b" (Some utcnow).

Definition this_week (self : QuerySet) : result (option QuerySet) :=
  RequestQuerySet.week strptime self
    (pretty (datetime.year utcnow))
    (pretty (isocalendar_week utcnow - 1)).

End Now.

End Conveniences.

(** *** The open-session lookups of [RequestManager] (managers.py 178-217) *)

(** What [self.raw(query, [user_ids, now])] is bound to; the SQL text is
    fixed. *)
Record RawQuery := {
  raw_user_ids : list Z;
  raw_now : Z
}.

Section OpenSessions.

Variable settings : Settings.
Variable key_matches : string -> string -> bool.

(** [int(s)] for a string; [None] stands for its [ValueError]. *)
Variable int_of_str : string -> option Z.

(** Running the raw query against the table (and the session table, which
    this development does not hold). *)
Variable execute_raw : RawQuery -> list Request -> list Request.

(** [int(x)]. *)
Definition py_int (x : pyval) : result Z :=
  match x with
  | PyInt z => Return z
  | PyBool b => Return (if b then 1 else 0)
  | PyStr s =>
      match int_of_str s with
      | Some z => Return z
      | None => Raise ValueError
      end
  | PyNone => Raise TypeError
  end.

(** [map(lambda x: int(x), user_ids)]: the first failure is the outcome. *)
Fixpoint map_int (user_ids : list pyval) : result (list Z) :=
  match user_ids with
  | [] => Return []
  | x :: rest =>
      result_bind (py_int x) (fun z =>
      result_bind (map_int rest) (fun zs => Return (z :: zs)))
  end.

Definition last_requests_with_open_sessions_from_users (clock : Z) (up : bool)
    (user_ids : list pyval) : M RawQuery :=
  user_ids <- lift (map_int user_ids) ;;
  let user_ids :=
    if (length user_ids =? 1)%nat
    then user_ids ++ [default 0 (head user_ids)]
    else user_ids in
  persist_cached settings key_matches None up ;;;
  ret {| raw_user_ids := user_ids; raw_now := clock |}.

Definition get_open_session_keys_from_users (clock : Z) (up : bool)
    (user_ids : list pyval) : M (list (option string)) :=
  requests <- last_requests_with_open_sessions_from_users clock up user_ids ;;
  rows <- (fun w => (Return (execute_raw requests (table w)), w)) ;;
  ret (session_key <$> rows).

End OpenSessions.

(** Replacing every [old] by [new]. *)
Fixpoint replace_char (old new : ascii) (s : string) : string :=
  match s with
  | EmptyString => EmptyString
  | String c s' =>
      String (if Ascii.eqb c old then new else c) (replace_char old new s')
  end.

(** ** More stand-ins and inputs for the examples *)

Module MoreExamples.

(** A redirect that names no target. *)
Definition redirect_without_location : HttpResponse.t :=
  {| HttpResponse.status_code := 302; HttpResponse.headers := ∅ |}.

(** Immediate strategy, told to log neither IPs nor users. *)
Definition immediate_private : Settings :=
  Examples.example_settings (PyBool false) 0 false false false.

(** Three exchanges, the second one made while the database is down. *)
Definition first_call : Call :=
  (Examples.env_at 10 true, Examples.get_as_alice "/a" "203.0.113.42",
   Some Examples.ok_response).
Definition second_call : Call :=
  (Examples.env_at 20 false, Examples.get "/b" "203.0.113.7",
   Some Examples.ok_response).
Definition third_call : Call :=
  (Examples.env_at 30 true, Examples.get "/c" "203.0.113.9",
   Some Examples.ok_response).

Definition first_record : Request :=
  set_user (Some 7) (Examples.record "/a" "203.0.113.42" 10).
Definition second_record : Request := Examples.record "/b" "203.0.113.7" 20.
Definition third_record : Request := Examples.record "/c" "203.0.113.9" 30.

(** The same, with the database up throughout. *)
Definition second_call_up : Call :=
  (Examples.env_at 20 true, Examples.get "/b" "203.0.113.7",
   Some Examples.ok_response).

(** Settings that ignore the user name of the anonymous user, the empty
    string. *)
Definition ignoring_anonymous : Settings :=
  {| REQUEST_VALID_METHOD_NAMES := ["get"; "post"];
     REQUEST_ONLY_ERRORS := false;
     REQUEST_IGNORE_PATHS := [];
     REQUEST_IGNORE_AJAX := false;
     REQUEST_IGNORE_IP := [];
     REQUEST_IGNORE_USERNAME := [EmptyString];
     REQUEST_USE_CACHE := PyBool false;
     REQUEST_CACHE_PREFIX := "request_";
     REQUEST_BUFFER_SIZE := 0;
     REQUEST_LOG_IP := true;
     REQUEST_IP_DUMMY := "1.1.1.1";
     REQUEST_ANONYMOUS_IP := false;
     REQUEST_LOG_USER := true |}.

(** A request whose [user] is Django's anonymous user. *)
Definition get_anonymous (path addr : string) : HttpRequest.t :=
  {| HttpRequest.method := "GET";
     HttpRequest.path := path;
     HttpRequest.is_secure := false;
     HttpRequest.is_ajax := false;
     HttpRequest.META := {[ "REMOTE_ADDR" := addr ]};
     HttpRequest.session := None;
     HttpRequest.user :=
       Some {| pk := 0; username := EmptyString; is_authenticated := false |} |}.

(** A decimal parser that knows one number. *)
Definition int_of_str (s : string) : option Z :=
  if String.eqb s "7" then Some 7 else None.

(** A query that yields the rows of the users asked for. *)
Definition execute_raw (q : RawQuery) (rows : list Request) : list Request :=
  List.filter (fun r => match user r with
                        | Some key => existsb (Z.eqb key) (raw_user_ids q)
                        | None => false
                        end) rows.

(** A resolver that knows one search engine. *)
Definition engines_resolve (referer : string)
    : option (string * gmap string string) :=
  if String.prefix "http://www.google." referer
  then Some ("Google", {[ "keywords" := "django+request+log" ]})
  else None.

(** 15 January 2021, one o'clock in the morning. *)
Definition one_o_clock : datetime.t :=
  {| datetime.year := 2021; datetime.month := 1; datetime.day := 15;
     datetime.usec := 3600000000 |}.

(** 15 January 2021, as a plain date. *)
Definition mid_january : datetime.t :=
  {| datetime.year := 2021; datetime.month := 1; datetime.day := 15;
     datetime.usec := 0 |}.

(** A record stamped at midnight of the given day. *)
Definition at_midnight (y m d : Z) : Request :=
  Examples.record "/" "203.0.113.42"
    ((datetime.ymd2ord y m d - 1) * datetime.usec_per_day).

(** A record of the user [u], made [ago] minutes before minute 100. *)
Definition seen (u : option Z) (ago : Z) : Request :=
  set_user u
    (Examples.record "/" "203.0.113.42" ((100 - ago) * 60000000)).

End MoreExamples.

(** * Facts about the string helpers *)

Lemma split_not_nil sep s : PyStr.split sep s <> [].
Proof.
  destruct s as [|c s]; simpl; [discriminate|].
  destruct (Ascii.eqb c sep); [discriminate|].
  destruct (PyStr.split sep s); discriminate.
Qed.

Lemma split_pieces_free sep s :
  Forall (fun piece => PyStr.free_of sep piece = true) (PyStr.split sep s).
Proof.
  induction s as [|c s IH]; simpl.
  - repeat constructor.
  - destruct (Ascii.eqb c sep) eqn:E.
    + constructor; [reflexivity | exact IH].
    + destruct (PyStr.split sep s) as [|piece rest].
      * repeat constructor. simpl. now rewrite E.
      * inversion IH; subst. constructor; [|assumption].
        simpl. rewrite E. assumption.
Qed.

Lemma split_free sep s :
  PyStr.free_of sep s = true -> PyStr.split sep s = [s].
Proof.
  induction s as [|c s IH]; simpl; [reflexivity|].
  intros H. apply andb_prop in H as [Hc Hs].
  apply negb_true_iff in Hc. rewrite Hc, (IH Hs). reflexivity.
Qed.

(** Splitting distributes over a separator between two strings. *)
Lemma split_app_sep sep a b :
  PyStr.split sep (a +:+ String sep b) = PyStr.split sep a ++ PyStr.split sep b.
Proof.
  induction a as [|c a IH]; simpl.
  - now rewrite Ascii.eqb_refl.
  - destruct (Ascii.eqb c sep); [now rewrite IH|].
    rewrite IH. destruct (PyStr.split sep a) as [|piece rest] eqn:E.
    + now destruct (split_not_nil sep a).
    + reflexivity.
Qed.

Lemma string_append_assoc (a b c : string) :
  (a +:+ b) +:+ c = a +:+ (b +:+ c).
Proof.
  induction a as [|x a IH]; [reflexivity|].
  change (String x ((a +:+ b) +:+ c) = String x (a +:+ (b +:+ c))).
  now rewrite IH.
Qed.

Lemma join_snoc sep (parts : list string) x :
  parts <> [] ->
  PyStr.join sep (parts ++ [x]) = PyStr.join sep parts +:+ sep +:+ x.
Proof.
  unfold PyStr.join.
  induction parts as [|p parts IH]; [congruence|]. intros _.
  destruct parts as [|q parts].
  - reflexivity.
  - change (String.concat sep ((p :: q :: parts) ++ [x]))
      with (p +:+ sep +:+ String.concat sep ((q :: parts) ++ [x])).
    rewrite IH by discriminate.
    change (String.concat sep (p :: q :: parts))
      with (p +:+ sep +:+ String.concat sep (q :: parts)).
    now rewrite !string_append_assoc.
Qed.

(** Joining what a string was split into gives the string back. *)
Lemma join_split sep s :
  PyStr.join (String sep EmptyString) (PyStr.split sep s) = s.
Proof.
  unfold PyStr.join.
  induction s as [|c s IH]; simpl; [reflexivity|].
  destruct (Ascii.eqb c sep) eqn:E.
  - apply Ascii.eqb_eq in E; subst c.
    destruct (PyStr.split sep s) as [|piece rest] eqn:Es.
    + now destruct (split_not_nil sep s).
    + simpl in *. now rewrite IH.
  - destruct (PyStr.split sep s) as [|piece rest] eqn:Es.
    + now destruct (split_not_nil sep s).
    + destruct rest; simpl in *; now rewrite <- IH.
Qed.

(** Splitting what was joined from separator-free parts gives the parts. *)
Lemma split_join sep (parts : list string) :
  parts <> [] ->
  Forall (fun piece => PyStr.free_of sep piece = true) parts ->
  PyStr.split sep (PyStr.join (String sep EmptyString) parts) = parts.
Proof.
  unfold PyStr.join.
  induction parts as [|p parts IH]; [congruence|].
  intros _ Hfree. inversion Hfree as [|? ? Hp Hparts]; subst.
  destruct parts as [|q parts].
  - simpl. now apply split_free.
  - change (String.concat (String sep EmptyString) (p :: q :: parts))
      with (p +:+ String sep (String.concat (String sep EmptyString) (q :: parts))).
    rewrite split_app_sep, (split_free _ _ Hp), IH by (discriminate || assumption).
    reflexivity.
Qed.

(** * The IP rewrite of [save] *)

Lemma anonymous_ip_last_octet prefix octet :
  PyStr.free_of "." octet = true ->
  anonymous_ip (prefix +:+ "." +:+ octet) = prefix +:+ ".1".
Proof.
  intros Hfree. unfold anonymous_ip.
  change (prefix +:+ "." +:+ octet) with (prefix +:+ String "." octet).
  rewrite split_app_sep, (split_free _ _ Hfree), removelast_last.
  rewrite join_snoc by apply split_not_nil.
  now rewrite (join_split "." prefix).
Qed.

Lemma anonymous_ip_idempotent addr :
  anonymous_ip (anonymous_ip addr) = anonymous_ip addr.
Proof.
  unfold anonymous_ip at 2 3.
  set (kept := removelast (PyStr.split "." addr)).
  assert (Hfree : Forall (fun piece => PyStr.free_of "." piece = true)
                    (kept ++ ["1"])).
  { apply Forall_app; split; [|repeat constructor].
    pose proof (split_pieces_free "." addr) as H.
    rewrite Forall_forall in *. intros x Hx. apply H.
    destruct (PyStr.split "." addr) as [|p l] eqn:E; [inversion Hx|].
    rewrite (app_removelast_last EmptyString (l := p :: l)) by discriminate.
    apply elem_of_app. now left. }
  unfold anonymous_ip.
  rewrite split_join; [|now destruct kept|exact Hfree].
  now rewrite removelast_last.
Qed.

Lemma save_ip_idempotent settings addr :
  save_ip settings (save_ip settings addr) = save_ip settings addr.
Proof.
  unfold save_ip. destruct (REQUEST_LOG_IP settings); simpl; [|reflexivity].
  destruct (REQUEST_ANONYMOUS_IP settings); [|reflexivity].
  apply anonymous_ip_idempotent.
Qed.

(** C7: [save] with a database that accepts the write persists exactly one
    row.  With IP logging off its IP is the configured dummy, whatever the
    anonymisation setting; with IP logging on and anonymisation on, the part
    after the last dot is replaced by 1, so 203.0.113.42 is persisted as
    203.0.113.1; and the rewrite of the IP is idempotent. *)
Theorem save_rewrites_ip (settings : Settings) (self : Request) (w : World) :
  exists row,
    save settings self true w
    = (Return tt,
       {| REQUEST_BUFFER := REQUEST_BUFFER w; table := table w ++ [row];
          cache := cache w; trace := trace w ++ [EvSave row true] |})
    /\ (REQUEST_LOG_IP settings = false -> ip row = REQUEST_IP_DUMMY settings)
    /\ (REQUEST_LOG_IP settings = true ->
        REQUEST_ANONYMOUS_IP settings = true ->
        forall prefix octet,
          PyStr.free_of "." octet = true ->
          ip self = prefix +:+ "." +:+ octet ->
          ip row = prefix +:+ ".1")
    /\ (REQUEST_LOG_IP settings = true ->
        REQUEST_ANONYMOUS_IP settings = true ->
        ip self = "203.0.113.42" -> ip row = "203.0.113.1")
    /\ (forall addr,
          save_ip settings (save_ip settings addr) = save_ip settings addr).
Proof.
  eexists. split; [reflexivity|]. simpl. unfold save_ip.
  split; [now intros ->|].
  split; [intros -> -> prefix octet Hfree ->; simpl;
          now apply anonymous_ip_last_octet|].
  split; [now intros -> -> ->|].
  apply save_ip_idempotent.
Qed.

Lemma save_rewrites_ip_witness :
  exists row,
    table (snd (save Examples.anonymising
                  (Examples.record "/" "203.0.113.42" 0) true empty_world))
    = [row]
    /\ ip row = "203.0.113.1".
Proof.
  destruct (save_rewrites_ip Examples.anonymising
              (Examples.record "/" "203.0.113.42" 0) empty_world)
    as (row & Hsave & _ & _ & Hip & _).
  exists row. split.
  - rewrite Hsave. reflexivity.
  - apply Hip; reflexivity.
Defined.

(** * The persistence router *)

Section RouterFacts.

Variable settings : Settings.
Variable get_client_ip : HttpRequest.t -> string.
Variable request_cache_key : Z -> Request -> string.

Local Abbreviation submit :=
  (create_from_http_request settings get_client_ip request_cache_key).
Local Abbreviation built := (builds get_client_ip).
Local Abbreviation submits :=
  (submit_all settings get_client_ip request_cache_key).

Lemma submit_all_cons env request resp calls w :
  submits ((env, request, resp) :: calls) w
  = submits calls (snd (submit env request resp true w)).
Proof. reflexivity. Qed.

(** What one call does under the Buffered strategy. *)
Lemma submit_buffered env request resp r w :
  py_eq_True (REQUEST_USE_CACHE settings) = false ->
  REQUEST_BUFFER_SIZE settings <> 0 ->
  built (env, request, resp) r ->
  submit env request resp true w
  = (Return tt,
     if Z.of_nat (length (REQUEST_BUFFER w ++ [r])) >? REQUEST_BUFFER_SIZE settings
     then {| REQUEST_BUFFER := [];
             table := if db_up env then table w ++ (REQUEST_BUFFER w ++ [r])
                      else table w;
             cache := cache w;
             trace := trace w
                      ++ [EvBulkCreate (REQUEST_BUFFER w ++ [r]) (db_up env)] |}
     else {| REQUEST_BUFFER := REQUEST_BUFFER w ++ [r]; table := table w;
             cache := cache w; trace := trace w |}).
Proof.
  intros Hcache Hsize Hr. unfold builds in Hr. simpl in Hr.
  apply Z.eqb_neq in Hsize.
  unfold create_from_http_request, bind, lift. rewrite Hr, Hcache, Hsize.
  cbn [get_buffer set_buffer REQUEST_BUFFER].
  destruct (_ >? _); [|reflexivity].
  unfold try_pass, bulk_create, bind.
  destruct (REQUEST_BUFFER w ++ [r]) as [|x l] eqn:E.
  { now destruct (REQUEST_BUFFER w). }
  destruct (db_up env); reflexivity.
Qed.

(** Below the threshold the calls only append. *)
Lemma submit_all_below_threshold calls : forall rs w,
  py_eq_True (REQUEST_USE_CACHE settings) = false ->
  REQUEST_BUFFER_SIZE settings <> 0 ->
  Forall2 built calls rs ->
  Z.of_nat (length (REQUEST_BUFFER w)) + Z.of_nat (length calls)
    <= REQUEST_BUFFER_SIZE settings ->
  submits calls w
  = {| REQUEST_BUFFER := REQUEST_BUFFER w ++ rs; table := table w;
       cache := cache w; trace := trace w |}.
Proof.
  induction calls as [|[[env request] resp] calls IH];
    intros rs w Hcache Hsize Hrs Hlen.
  - inversion Hrs; subst. rewrite app_nil_r. now destruct w.
  - inversion Hrs as [|? r ? rs' Hr Hrs']; subst.
    rewrite submit_all_cons, (submit_buffered _ _ _ r) by assumption.
    cbn [snd].
    assert (Hle : Z.of_nat (length (REQUEST_BUFFER w ++ [r]))
                  <= REQUEST_BUFFER_SIZE settings).
    { rewrite length_app. cbn [length] in *. lia. }
    destruct (_ >? _) eqn:E; [apply Z.gtb_lt in E; lia|].
    rewrite (IH rs'); cbn [REQUEST_BUFFER table cache trace]; try assumption.
    + now rewrite <- app_assoc.
    + rewrite length_app in *. cbn [length] in *. lia.
Qed.

Lemma submit_all_snoc calls c w :
  submits (calls ++ [c]) w
  = submits [c]
      (submits calls w).
Proof. unfold submit_all. now rewrite fold_left_app. Qed.

(** C1: Buffered strategy with threshold T, buffer empty at the start.
    T calls that build the records [rs] leave them in the buffer and attempt
    no insert; the next call, building [r], makes the buffer longer than T,
    attempts one bulk insert of exactly [rs ++ [r]] and leaves the buffer
    empty, whether the database accepted the insert or not. *)
Theorem buffered_flush_at_threshold
    (calls : list Call) (last : Call) (rs : list Request) (r : Request)
    (w : World) :
  py_eq_True (REQUEST_USE_CACHE settings) = false ->
  0 < REQUEST_BUFFER_SIZE settings ->
  REQUEST_BUFFER w = [] ->
  Z.of_nat (length calls) = REQUEST_BUFFER_SIZE settings ->
  Forall2 (builds get_client_ip) calls rs ->
  builds get_client_ip last r ->
  let before := submit_all settings get_client_ip request_cache_key calls w in
  let after :=
    submit_all settings get_client_ip request_cache_key (calls ++ [last]) w in
  REQUEST_BUFFER before = rs
  /\ trace before = trace w
  /\ table before = table w
  /\ Z.of_nat (length (REQUEST_BUFFER before ++ [r])) > REQUEST_BUFFER_SIZE settings
  /\ trace after = trace w ++ [EvBulkCreate (rs ++ [r]) (db_up last.1.1)]
  /\ REQUEST_BUFFER after = []
  /\ table after = (if db_up last.1.1 then table w ++ (rs ++ [r]) else table w)
  /\ cache after = cache w.
Proof.
  intros Hcache Hpos Hempty Hlen Hrs Hr before after.
  assert (Hsize : REQUEST_BUFFER_SIZE settings <> 0) by lia.
  assert (Hbefore : before
                    = {| REQUEST_BUFFER := rs; table := table w;
                         cache := cache w; trace := trace w |}).
  { subst before. rewrite (submit_all_below_threshold calls rs) by
      (try assumption; rewrite Hempty; cbn [length]; lia).
    now rewrite Hempty. }
  assert (Hlong : Z.of_nat (length (rs ++ [r])) > REQUEST_BUFFER_SIZE settings).
  { rewrite length_app, <- (Forall2_length _ _ _ Hrs). cbn [length]. lia. }
  subst after. rewrite submit_all_snoc. fold before. rewrite Hbefore.
  destruct last as [[env request] resp].
  rewrite submit_all_cons, (submit_buffered _ _ _ r) by assumption.
  cbn [snd REQUEST_BUFFER table cache trace fst].
  apply Z.gt_lt, Z.gtb_lt in Hlong. rewrite Hlong.
  cbn [REQUEST_BUFFER table cache trace].
  apply Z.gtb_lt in Hlong. repeat split; try reflexivity. lia.
Qed.

(** What one call does under the Cached strategy. *)
Lemma submit_cached env request resp r w :
  py_eq_True (REQUEST_USE_CACHE settings) = true ->
  built (env, request, resp) r ->
  submit env request resp true w
  = (Return tt,
     {| REQUEST_BUFFER := REQUEST_BUFFER w;
        table := table w;
        cache := <[request_cache_key (nonce env) r := (r, 0)]> (cache w);
        trace := trace w ++ [EvCacheSet (request_cache_key (nonce env) r) r 0] |}).
Proof.
  intros Hcache Hr. unfold builds in Hr. simpl in Hr.
  unfold create_from_http_request, bind, lift. now rewrite Hr, Hcache.
Qed.

(** C6: under the Cached strategy a call that built [r] sets one cache
    entry, keyed by the derived key and with timeout 0, and returns; the
    buffer and the table are as before and nothing was asked of the
    database, whatever the buffer size is set to. *)
Theorem cached_submit_only_sets_cache env request resp r (w : World) :
  py_eq_True (REQUEST_USE_CACHE settings) = true ->
  builds get_client_ip (env, request, resp) r ->
  create_from_http_request settings get_client_ip
      request_cache_key env request resp true w
  = (Return tt,
     {| REQUEST_BUFFER := REQUEST_BUFFER w;
        table := table w;
        cache := <[request_cache_key (nonce env) r := (r, 0)]> (cache w);
        trace := trace w ++ [EvCacheSet (request_cache_key (nonce env) r) r 0] |}).
Proof.
  intros Hcache Hr. unfold builds in Hr. cbn [fst snd] in Hr.
  unfold create_from_http_request, bind, lift. rewrite Hr, Hcache.
  reflexivity.
Qed.

(** What one call does under the Immediate strategy. *)
Lemma submit_immediate env request resp r w :
  py_eq_True (REQUEST_USE_CACHE settings) = false ->
  REQUEST_BUFFER_SIZE settings = 0 ->
  built (env, request, resp) r ->
  submit env request resp true w
  = save settings r (db_up env) w.
Proof.
  intros Hcache Hsize Hr. unfold builds in Hr. simpl in Hr.
  unfold create_from_http_request, bind, lift. now rewrite Hr, Hcache, Hsize.
Qed.

(** C3, as the code has it: a call that built its record returns without
    raising under the Buffered and the Cached strategy, whether or not the
    database accepts a write; under the Immediate strategy it returns when
    the database accepts the row and raises the database's error when it
    does not. *)
Theorem submit_raises_only_when_immediate env request resp r (w : World) :
  builds get_client_ip (env, request, resp) r ->
  (py_eq_True (REQUEST_USE_CACHE settings) = true
   \/ REQUEST_BUFFER_SIZE settings <> 0 ->
   fst (create_from_http_request settings get_client_ip
      request_cache_key env request resp true w) = Return tt)
  /\ (py_eq_True (REQUEST_USE_CACHE settings) = false ->
      REQUEST_BUFFER_SIZE settings = 0 ->
      fst (create_from_http_request settings get_client_ip
      request_cache_key env request resp true w)
      = if db_up env then Return tt else Raise DatabaseError).
Proof.
  intros Hr. split.
  - destruct (py_eq_True (REQUEST_USE_CACHE settings)) eqn:Hcache.
    + intros _. now rewrite (submit_cached _ _ _ r).
    + intros [?|Hsize]; [discriminate|].
      now rewrite (submit_buffered _ _ _ r).
  - intros Hcache Hsize. rewrite (submit_immediate _ _ _ r) by assumption.
    destruct (db_up env); reflexivity.
Qed.

End RouterFacts.

Lemma buffered_flush_at_threshold_witness :
  let first := (Examples.env_at 10 true, Examples.get "/a" "203.0.113.42",
                Some Examples.ok_response) in
  let second := (Examples.env_at 20 false, Examples.get "/b" "203.0.113.7",
                 Some Examples.ok_response) in
  let first_record := Examples.record "/a" "203.0.113.42" 10 in
  let second_record := Examples.record "/b" "203.0.113.7" 20 in
  let after :=
    submit_all (Examples.buffered 1) Examples.get_client_ip
      Examples.request_cache_key [first; second] empty_world in
  trace after = [EvBulkCreate [first_record; second_record] false]
  /\ REQUEST_BUFFER after = []
  /\ table after = [].
Proof.
  intros first second first_record second_record after.
  destruct (buffered_flush_at_threshold (Examples.buffered 1)
              Examples.get_client_ip Examples.request_cache_key
              [first] second [first_record] second_record empty_world)
    as (_ & _ & _ & _ & Htrace & Hbuffer & Htable & _).
  - reflexivity.
  - reflexivity.
  - reflexivity.
  - reflexivity.
  - repeat constructor.
  - reflexivity.
  - repeat split; assumption.
Defined.

Lemma cached_submit_only_sets_cache_witness :
  let r := Examples.record "/a" "203.0.113.42" 10 in
  create_from_http_request Examples.cached Examples.get_client_ip
    Examples.request_cache_key (Examples.env_at 10 false)
    (Examples.get "/a" "203.0.113.42") (Some Examples.ok_response) true
    empty_world
  = (Return tt,
     {| REQUEST_BUFFER := []; table := [];
        cache := {[ "request_/a_0" := (r, 0) ]};
        trace := [EvCacheSet "request_/a_0" r 0] |}).
Proof.
  intros r.
  rewrite (cached_submit_only_sets_cache Examples.cached
             Examples.get_client_ip Examples.request_cache_key
             (Examples.env_at 10 false) (Examples.get "/a" "203.0.113.42")
             (Some Examples.ok_response) r empty_world);
    reflexivity.
Defined.

(** The Immediate strategy lets the database's error reach the caller of
    the middleware. *)
Lemma immediate_submit_raises :
  fst (process_response Examples.immediate Examples.get_client_ip
         Examples.request_cache_key Examples.patterns_resolve
         (Examples.env_at 10 false) (Examples.get "/a" "203.0.113.42")
         Examples.ok_response empty_world)
  = Raise DatabaseError.
Proof. vm_compute. reflexivity. Qed.

Lemma submit_raises_only_when_immediate_witness :
  fst (create_from_http_request (Examples.buffered 1) Examples.get_client_ip
         Examples.request_cache_key (Examples.env_at 10 false)
         (Examples.get "/a" "203.0.113.42") (Some Examples.ok_response) true
         {| REQUEST_BUFFER := [Examples.record "/" "203.0.113.7" 5];
            table := []; cache := ∅; trace := [] |})
  = Return tt
  /\ fst (create_from_http_request Examples.immediate Examples.get_client_ip
            Examples.request_cache_key (Examples.env_at 10 false)
            (Examples.get "/a" "203.0.113.42") (Some Examples.ok_response)
            true empty_world)
     = Raise DatabaseError.
Proof.
  split.
  - apply (submit_raises_only_when_immediate (Examples.buffered 1)
             Examples.get_client_ip Examples.request_cache_key
             (Examples.env_at 10 false) (Examples.get "/a" "203.0.113.42")
             (Some Examples.ok_response)
             (Examples.record "/a" "203.0.113.42" 10)).
    + reflexivity.
    + right. discriminate.
  - apply (submit_raises_only_when_immediate Examples.immediate
             Examples.get_client_ip Examples.request_cache_key
             (Examples.env_at 10 false) (Examples.get "/a" "203.0.113.42")
             (Some Examples.ok_response)
             (Examples.record "/a" "203.0.113.42" 10)); reflexivity.
Defined.

(** C4, evaluated: threshold 1, IP logging off, anonymisation on, user
    logging off.  The two buffered records reach the table with the client's
    IP and the user's key, while [save] on the first of them stores the
    dummy IP and no user. *)
Theorem buffered_flush_skips_redaction :
  let first := (Examples.env_at 10 true,
                Examples.get_as_alice "/a" "203.0.113.42",
                Some Examples.ok_response) in
  let second := (Examples.env_at 20 true,
                 Examples.get_as_alice "/b" "203.0.113.42",
                 Some Examples.ok_response) in
  let r := set_user (Some 7) (Examples.record "/a" "203.0.113.42" 10) in
  map (fun row => (ip row, user row))
    (table (submit_all Examples.buffered_private Examples.get_client_ip
              Examples.request_cache_key [first; second] empty_world))
  = [("203.0.113.42", Some 7); ("203.0.113.42", Some 7)]
  /\ map (fun row => (ip row, user row))
       (table (snd (save Examples.buffered_private r true empty_world)))
     = [("1.1.1.1", None)].
Proof. vm_compute. split; reflexivity. Qed.

(** * Draining the cache *)

Section CacheFacts.

Variable settings : Settings.
Variable key_matches : string -> string -> bool.

Lemma get_many_of_entries (c : gmap string (Request * Z)) (P : string -> Prop)
    `{!forall k, Decision (P k)} (l : list (string * (Request * Z))) :
  (forall kv, kv ∈ l -> c !! kv.1 = Some kv.2) ->
  omap (fun k => (fun e => (k, fst e)) <$> c !! k) (filter P l.*1)
  = prod_map id fst <$> filter (fun kv => P kv.1) l.
Proof.
  induction l as [|[k e] l IH]; intros Hl; [reflexivity|].
  assert (Hk : c !! k = Some e) by (apply (Hl (k, e)); left).
  assert (Hl' : forall kv, kv ∈ l -> c !! kv.1 = Some kv.2)
    by (intros kv ?; apply Hl; now right).
  rewrite fmap_cons, !filter_cons. cbn [fst].
  destruct (decide (P k)); cbn; rewrite ?Hk; cbn; now rewrite IH.
Qed.

(** The records retrieved are the values under the matching keys. *)
Lemma cached_values_matching pattern (c : gmap string (Request * Z)) :
  cached_values key_matches pattern c
  ≡ₚ (fun kv => fst (snd kv))
       <$> map_to_list (filter (fun kv => key_matches pattern kv.1 = true) c).
Proof.
  unfold cached_values, dict_values.
  rewrite (get_many_of_entries c (fun k => key_matches pattern k = true)).
  2:{ intros [k e] H. now apply elem_of_map_to_list in H. }
  rewrite list_to_map_fmap, <- map_filter_alt, map_to_list_fmap.
  rewrite <- list_fmap_compose. reflexivity.
Qed.

Lemma filter_none {A} (P : A -> Prop) `{!forall x, Decision (P x)} (l : list A) :
  (forall x, x ∈ l -> ~ P x) -> filter P l = [].
Proof.
  induction l as [|a l IH]; intros Hl; [reflexivity|].
  rewrite filter_cons. destruct (decide (P a)) as [Ha|_].
  - destruct (Hl a); [left | exact Ha].
  - apply IH. intros x Hx. apply Hl. now right.
Qed.

(** Once the pattern is deleted, nothing is retrieved under it. *)
Lemma cached_values_after_delete pattern (c : gmap string (Request * Z)) :
  cached_values key_matches pattern
    (filter (fun kv => key_matches pattern kv.1 = false) c)
  = [].
Proof.
  unfold cached_values. rewrite filter_none; [reflexivity|].
  intros k Hk. apply list_elem_of_fmap in Hk as ([k' e] & -> & Hke).
  apply elem_of_map_to_list, map_lookup_filter_Some in Hke as [_ Hno].
  cbn in *. congruence.
Qed.

(** [persist_cached] with the cache in use, step by step. *)
Lemma persist_cached_run cache_pattern up w :
  py_truthy (REQUEST_USE_CACHE settings) = true ->
  persist_cached settings key_matches cache_pattern up w
  = let pattern := cache_pattern_or_default settings cache_pattern in
    let requests := cached_values key_matches pattern (cache w) in
    let kept := filter (fun kv => key_matches pattern kv.1 = false) (cache w) in
    match requests with
    | [] =>
        (Return [],
         {| REQUEST_BUFFER := REQUEST_BUFFER w; table := table w;
            cache := kept;
            trace := trace w ++ [EvCacheDeletePattern pattern] |})
    | _ :: _ =>
        if up then
          (Return requests,
           {| REQUEST_BUFFER := REQUEST_BUFFER w;
              table := table w ++ requests;
              cache := kept;
              trace := (trace w ++ [EvBulkCreate requests true])
                       ++ [EvCacheDeletePattern pattern] |})
        else
          (Raise DatabaseError,
           {| REQUEST_BUFFER := REQUEST_BUFFER w; table := table w;
              cache := cache w;
              trace := trace w ++ [EvBulkCreate requests false] |})
    end.
Proof.
  intros Huse. unfold persist_cached. rewrite Huse.
  unfold bind, cache_keys, cache_get_many, bind, get_cache, ret.
  cbn [cache].
  fold (cached_values key_matches
          (cache_pattern_or_default settings cache_pattern) (cache w)).
  cbn zeta.
  destruct (cached_values _ _ _) as [|x l]; [reflexivity|].
  unfold bulk_create, bind. destruct up; reflexivity.
Qed.

(** C2, as the code has it: with the cache in use, [persist_cached]
    retrieves the records under the keys that match the pattern.  When the
    bulk insert succeeds, or there is nothing to insert, it returns them and
    every matching key is gone from the cache while every other key is as it
    was.  When the bulk insert fails, the database's error is raised to the
    caller and the cache and the table are as they were. *)
Theorem persist_cached_clears_on_success cache_pattern up (w : World) :
  py_truthy (REQUEST_USE_CACHE settings) = true ->
  let pattern := cache_pattern_or_default settings cache_pattern in
  let requests := cached_values key_matches pattern (cache w) in
  let outcome := persist_cached settings key_matches cache_pattern up w in
  requests
  ≡ₚ (fun kv => fst (snd kv))
       <$> map_to_list
             (filter (fun kv => key_matches pattern kv.1 = true) (cache w))
  /\ (up = true \/ requests = [] ->
      fst outcome = Return requests
      /\ (forall k, key_matches pattern k = true ->
                    cache (snd outcome) !! k = None)
      /\ (forall k, key_matches pattern k = false ->
                    cache (snd outcome) !! k = cache w !! k))
  /\ (up = false -> requests <> [] ->
      fst outcome = Raise DatabaseError
      /\ cache (snd outcome) = cache w
      /\ table (snd outcome) = table w).
Proof.
  intros Huse pattern requests outcome.
  split; [apply cached_values_matching|].
  assert (Hgone : forall k, key_matches pattern k = true ->
            filter (fun kv => key_matches pattern kv.1 = false) (cache w) !! k
            = None).
  { intros k Hk. apply map_lookup_filter_None. right. intros e _. cbn.
    congruence. }
  assert (Hkept : forall k, key_matches pattern k = false ->
            filter (fun kv => key_matches pattern kv.1 = false) (cache w) !! k
            = cache w !! k).
  { intros k Hk. destruct (cache w !! k) as [e|] eqn:E.
    - now apply map_lookup_filter_Some.
    - apply map_lookup_filter_None. now left. }
  subst outcome. rewrite persist_cached_run by assumption. cbn zeta.
  fold pattern. fold requests.
  split.
  - intros Hok. destruct requests as [|x l] eqn:E.
    + cbn. auto.
    + destruct Hok as [-> | ?]; [|discriminate]. cbn. auto.
  - intros -> Hsome. destruct requests as [|x l]; [congruence|].
    cbn. auto.
Qed.

(** C8, as the code has it: two calls of [persist_cached] one after the
    other, same pattern, nothing in between.  When the first call returns,
    the second returns the empty list, whatever the cache held and whether
    or not the database is up.  When the first call raises, it is the
    database's error on a non-empty batch, the cache still holds what it
    held, and the second call retrieves the same records again: it returns
    them if the database is up and raises again if it is not. *)
Theorem persist_cached_second_call cache_pattern up1 up2 (w : World) :
  let first := persist_cached settings key_matches cache_pattern up1 w in
  let second :=
    persist_cached settings key_matches cache_pattern up2 (snd first) in
  (forall created, fst first = Return created -> fst second = Return [])
  /\ (forall e, fst first = Raise e ->
        let requests :=
          cached_values key_matches
            (cache_pattern_or_default settings cache_pattern) (cache w) in
        e = DatabaseError
        /\ up1 = false
        /\ requests <> []
        /\ cache (snd first) = cache w
        /\ fst second = if up2 then Return requests else Raise DatabaseError).
Proof.
  intros first second. subst first second.
  destruct (py_truthy (REQUEST_USE_CACHE settings)) eqn:Huse.
  - rewrite (persist_cached_run cache_pattern up1) by assumption. cbn zeta.
    destruct (cached_values _ _ (cache w)) as [|x l] eqn:E.
    + cbn [fst snd]. split; [|discriminate]. intros _ _.
      rewrite persist_cached_run by assumption. cbn [cache]. cbn zeta.
      now rewrite cached_values_after_delete.
    + destruct up1; cbn [fst snd].
      * split; [|discriminate]. intros _ _.
        rewrite persist_cached_run by assumption. cbn [cache]. cbn zeta.
        now rewrite cached_values_after_delete.
      * split; [discriminate|]. intros e [= <-].
        rewrite persist_cached_run by assumption. cbn [cache]. cbn zeta.
        rewrite E. repeat split; try discriminate.
        destruct up2; reflexivity.
  - unfold persist_cached. rewrite Huse. cbn. split; [auto | discriminate].
Qed.

End CacheFacts.

(** With the database down the call raises and the matching key stays in
    the cache. *)
Lemma persist_cached_keeps_cache_on_failure :
  let r := Examples.record "/a" "203.0.113.42" 10 in
  let outcome :=
    persist_cached Examples.cached Examples.key_matches None false
      (Examples.one_cached r) in
  Examples.key_matches "request_*" "request_/a_0" = true
  /\ fst outcome = Raise DatabaseError
  /\ cache (snd outcome) !! "request_/a_0" = Some (r, 0).
Proof. vm_compute. repeat split; reflexivity. Qed.

(** One record in the cache and the database down at the first call: the
    first call raises, and the second call, made with the database up,
    returns the record instead of the empty list. *)
Lemma persist_cached_second_call_not_empty :
  let r := Examples.record "/a" "203.0.113.42" 10 in
  let first :=
    persist_cached Examples.cached Examples.key_matches None false
      (Examples.one_cached r) in
  let second :=
    persist_cached Examples.cached Examples.key_matches None true
      (snd first) in
  fst first = Raise DatabaseError
  /\ fst second = Return [r]
  /\ fst second <> Return [].
Proof.
  vm_compute. split; [reflexivity|]. split; [reflexivity|].
  intros H. discriminate H.
Qed.

(** One record in the cache and the database up: the first call returns
    the record, the second call, made with the database down, returns the
    empty list. *)
Lemma persist_cached_second_call_witness :
  let r := Examples.record "/a" "203.0.113.42" 10 in
  let first :=
    persist_cached Examples.cached Examples.key_matches None true
      (Examples.one_cached r) in
  fst first = Return [r]
  /\ fst (persist_cached Examples.cached Examples.key_matches None false
            (snd first))
     = Return [].
Proof.
  intros r first.
  assert (Hfirst : fst first = Return [r]) by (vm_compute; reflexivity).
  split; [exact Hfirst|].
  exact (proj1 (persist_cached_second_call Examples.cached
                  Examples.key_matches None true false
                  (Examples.one_cached r)) [r] Hfirst).
Defined.

Lemma persist_cached_clears_on_success_witness :
  let r := Examples.record "/a" "203.0.113.42" 10 in
  let outcome :=
    persist_cached Examples.cached Examples.key_matches None true
      (Examples.one_cached r) in
  fst outcome = Return [r]
  /\ cache (snd outcome) !! "request_/a_0" = None.
Proof.
  intros r outcome.
  destruct (persist_cached_clears_on_success Examples.cached
              Examples.key_matches None true (Examples.one_cached r))
    as (_ & Hok & _); [reflexivity|].
  destruct Hok as (Hret & Hgone & _); [now left|].
  split; [exact Hret | apply Hgone; reflexivity].
Defined.

(** * The period filters *)

Section PeriodFacts.

Variable strptime : string -> string -> option (Z * Z * Z).

Lemma truthy_Some s : s <> EmptyString -> PyStr.truthy (Some s) = true.
Proof. intros H. destruct s; [congruence | reflexivity]. Qed.

(** C9, as the code has it: when no date is passed and the components, none
    of them empty, do not parse, [month], [week] and [day] return [None] (no
    query set, so no results) and raise nothing.  When a component of
    [month] or of [day] is missing or empty, the call raises [TypeError]. *)
Theorem period_filters_unparseable (self : QuerySet) :
  (forall year month month_format,
     year <> EmptyString -> month <> EmptyString ->
     strptime (year +:+ month) ("%Y" +:+ month_format) = None ->
     RequestQuerySet.month strptime self (Some year) (Some month)
       month_format None
     = Return None)
  /\ (forall year week,
        strptime (year +:+ "-0-" +:+ week) "%Y-%w-%U" = None ->
        RequestQuerySet.week strptime self year week = Return None)
  /\ (forall year month day month_format day_format,
        year <> EmptyString -> month <> EmptyString -> day <> EmptyString ->
        strptime (year +:+ month +:+ day)
          ("%Y" +:+ month_format +:+ day_format) = None ->
        RequestQuerySet.day strptime self (Some year) (Some month) (Some day)
          month_format day_format None
        = Return None)
  /\ (forall year month month_format,
        PyStr.truthy year && PyStr.truthy month = false ->
        RequestQuerySet.month strptime self year month month_format None
        = Raise TypeError)
  /\ (forall year month day month_format day_format,
        PyStr.truthy year && PyStr.truthy month && PyStr.truthy day = false ->
        RequestQuerySet.day strptime self year month day month_format
          day_format None
        = Raise TypeError).
Proof.
  repeat split.
  - intros year month fmt Hy Hm Hparse. unfold RequestQuerySet.month.
    rewrite (truthy_Some _ Hy), (truthy_Some _ Hm). cbn [andb default from_option id].
    unfold RequestQuerySet.strptime_date. now rewrite Hparse.
  - intros year week Hparse. unfold RequestQuerySet.week.
    unfold RequestQuerySet.strptime_date. now rewrite Hparse.
  - intros year month day mf df Hy Hm Hd Hparse. unfold RequestQuerySet.day.
    rewrite (truthy_Some _ Hy), (truthy_Some _ Hm), (truthy_Some _ Hd).
    cbn [andb default from_option id].
    unfold RequestQuerySet.strptime_date. now rewrite Hparse.
  - intros year month fmt H. unfold RequestQuerySet.month. now rewrite H.
  - intros year month day mf df H. unfold RequestQuerySet.day. now rewrite H.
Qed.

End PeriodFacts.

(** The components ('', 'Jan') do not parse against [%Y%b], and [month]
    raises [TypeError] on them. *)
Lemma month_empty_year_raises :
  Examples.strptime (EmptyString +:+ "Jan") ("%Y" +:+ "%b") = None
  /\ RequestQuerySet.month Examples.strptime [] (Some EmptyString) (Some "Jan")
       "%b" None
     = Raise TypeError.
Proof. split; reflexivity. Qed.

Lemma period_filters_unparseable_witness :
  RequestQuerySet.month Examples.strptime [] (Some "2021") (Some "Foo") "%b"
    None
  = Return None
  /\ RequestQuerySet.week Examples.strptime [] "2021" "99" = Return None.
Proof.
  destruct (period_filters_unparseable Examples.strptime [])
    as (Hmonth & Hweek & _).
  split.
  - apply Hmonth; [discriminate | discriminate | reflexivity].
  - apply Hweek. reflexivity.
Defined.

(** * Active users *)

Lemma elem_of_filter_user_notnull r (self : QuerySet) :
  r ∈ filter_user_notnull self <-> r ∈ self /\ user r <> None.
Proof.
  unfold filter_user_notnull. rewrite !list_elem_of_In, filter_In.
  destruct (user r); split; intros [? ?]; split;
    solve [assumption | reflexivity | congruence].
Qed.

Lemma elem_of_filter_time_gte r lo (self : QuerySet) :
  r ∈ filter_time_gte lo self
  <-> r ∈ self /\ exists t, time r = Some t /\ lo <= t.
Proof.
  unfold filter_time_gte. rewrite !list_elem_of_In, filter_In.
  destruct (time r) as [t|].
  - rewrite Z.leb_le. split; intros [? ?]; split; try assumption.
    + now exists t.
    + destruct H0 as (t' & [= <-] & ?). assumption.
  - split; intros [? ?]; [discriminate|]. destruct H0 as (? & ? & ?).
    discriminate.
Qed.

Lemma elem_of_users (requests : QuerySet) (o : option Z) :
  o ∈ (list_to_set (user <$> requests) : gset (option Z))
  <-> exists r, r ∈ requests /\ user r = o.
Proof.
  rewrite elem_of_list_to_set, list_elem_of_fmap.
  split; intros (r & ? & ?); exists r; split;
    solve [assumption | congruence].
Qed.

(** C10: whenever [active_users] returns, the null user is not in the set,
    and a user is in it exactly when a record of the table carries that user
    and, if a window was given, a time not earlier than the clock minus the
    window.  Records without a user are dropped first, before any time
    filter, so they never count. *)
Theorem active_users_only_non_null (self : QuerySet) (clock : Z)
    (options : gmap string Z) (users : gset (option Z)) :
  active_users self clock options = Return users ->
  (None ∉ users)
  /\ (forall o, o ∈ users ->
        exists r, r ∈ filter_user_notnull self /\ user r = o)
  /\ (forall u, Some u ∈ users <->
        exists r, r ∈ self /\ user r = Some u
                  /\ (options = ∅
                      \/ exists delta cutoff t,
                           datetime.timedelta options = Return delta
                           /\ datetime.sub clock delta = Return cutoff
                           /\ time r = Some t /\ cutoff <= t)).
Proof.
  unfold active_users. intros Hret.
  destruct (bool_decide (options = ∅)) eqn:Hopt.
  - apply bool_decide_eq_true in Hopt. cbn in Hret.
    injection Hret as <-.
    split; [|split].
    + rewrite elem_of_users. intros (r & Hr & Hu).
      apply elem_of_filter_user_notnull in Hr as [_ ?]. congruence.
    + intros o. now rewrite elem_of_users.
    + intros u. rewrite elem_of_users. split.
      * intros (r & Hr & Hu). apply elem_of_filter_user_notnull in Hr as [? _].
        exists r. auto.
      * intros (r & Hr & Hu & _). exists r. split; [|exact Hu].
        apply elem_of_filter_user_notnull. split; congruence.
  - apply bool_decide_eq_false in Hopt.
    destruct (datetime.timedelta options) as [delta|] eqn:Hdelta;
      [|discriminate].
    cbn [result_bind] in Hret.
    destruct (datetime.sub clock delta) as [cutoff|] eqn:Hcut; [|discriminate].
    cbn [result_bind] in Hret. injection Hret as <-.
    split; [|split].
    + rewrite elem_of_users. intros (r & Hr & Hu).
      apply elem_of_filter_time_gte in Hr as [Hr _].
      apply elem_of_filter_user_notnull in Hr as [_ ?]. congruence.
    + intros o. rewrite elem_of_users. intros (r & Hr & Hu).
      apply elem_of_filter_time_gte in Hr as [Hr _]. eauto.
    + intros u. rewrite elem_of_users. split.
      * intros (r & Hr & Hu).
        apply elem_of_filter_time_gte in Hr as [Hr (t & Ht & Hle)].
        apply elem_of_filter_user_notnull in Hr as [? _].
        exists r. split; [assumption|]. split; [assumption|].
        right. exists delta, cutoff, t. auto.
      * intros (r & Hr & Hu & [Hempty | (d & c & t & Hd & Hc & Ht & Hle)]);
          [contradiction|].
        injection Hd as <-. rewrite Hcut in Hc. injection Hc as <-.
        exists r. split; [|exact Hu].
        apply elem_of_filter_time_gte. split; [|eauto].
        apply elem_of_filter_user_notnull. split; congruence.
Qed.

(** Users 1 (five minutes ago), 2 (twenty minutes ago), 1 again (one minute
    ago) and a record without user (two minutes ago); window of 15 minutes. *)
Lemma active_users_only_non_null_witness :
  let minute := 60000000 in
  let clock := 100 * minute in
  let seen u ago :=
    set_user u (Examples.record "/" "203.0.113.42" (clock - ago * minute)) in
  let rows := [seen (Some 1) 5; seen (Some 2) 20; seen (Some 1) 1; seen None 2] in
  active_users rows clock {[ "minutes" := 15 ]} = Return {[ Some 1 ]}
  /\ (None ∉ ({[ Some 1 ]} : gset (option Z))).
Proof.
  intros minute clock seen rows.
  assert (H : active_users rows clock {[ "minutes" := 15 ]}
              = Return {[ Some 1 ]}) by (vm_compute; reflexivity).
  split; [exact H|].
  exact (proj1 (active_users_only_non_null rows clock {[ "minutes" := 15 ]}
                  {[ Some 1 ]} H)).
Defined.

(** * More about building and routing records *)

Section BuildFacts.

Variable get_client_ip : HttpRequest.t -> string.

Lemma take_length n s : (String.length (PyStr.take n s) <= n)%nat.
Proof.
  unfold PyStr.take. revert s.
  induction n as [|n IH]; intros [|c s]; cbn; try lia.
  specialize (IH s). lia.
Qed.

(** [from_http_request] fails in one way only: a 301 or 302 response
    without a [Location] header. *)
Lemma from_http_request_raises self clock request resp e :
  from_http_request get_client_ip self clock request resp = Raise e
  <-> e = KeyError
      /\ exists answer,
           resp = Some answer
           /\ (HttpResponse.status_code answer = 301
               \/ HttpResponse.status_code answer = 302)
           /\ HttpResponse.headers answer !! "Location" = None.
Proof.
  unfold from_http_request. destruct resp as [answer|].
  - unfold HttpResponse.getitem.
    destruct (HttpResponse.status_code answer =? 301) eqn:E1;
      destruct (HttpResponse.status_code answer =? 302) eqn:E2;
      cbn [orb];
      try (destruct (HttpResponse.headers answer !! "Location") eqn:EL;
           cbn [result_bind]);
      split;
      try discriminate;
      try (intros [= <-]; split; [reflexivity|]; exists answer;
           rewrite ?Z.eqb_eq in *; auto);
      try (intros (_ & a & [= <-] & _ & ?); congruence);
      try (intros (-> & _); reflexivity).
    intros (_ & a & [= <-] & [?|?] & _); rewrite Z.eqb_neq in *; lia.
  - split; [discriminate|]. intros (_ & a & ? & _). discriminate.
Qed.

(** X2: what a built record holds.  Its time is the clock reading; method,
    path and flags are the request's and the IP is what [get_client_ip]
    gives; referer, user agent and language are set and at most 255
    characters long; the user is set exactly when the request carries an
    authenticated user, to that user's key; the status is the response's, or
    200 when there is no response. *)
Theorem from_http_request_fields clock request resp (r : Request) :
  from_http_request get_client_ip new_Request clock request resp = Return r ->
  time r = Some clock
  /\ method r = HttpRequest.method request
  /\ path r = HttpRequest.path request
  /\ is_secure r = HttpRequest.is_secure request
  /\ is_ajax r = HttpRequest.is_ajax request
  /\ ip r = get_client_ip request
  /\ (exists a b c,
        referer r = Some a /\ user_agent r = Some b /\ language r = Some c
        /\ (String.length a <= 255)%nat /\ (String.length b <= 255)%nat
        /\ (String.length c <= 255)%nat)
  /\ (forall key, user r = Some key <->
        exists u, HttpRequest.user request = Some u
                  /\ is_authenticated u = true /\ pk u = key)
  /\ response r = match resp with
                  | Some answer => HttpResponse.status_code answer
                  | None => 200
                  end.
Proof.
  unfold from_http_request. intros H.
  destruct (HttpRequest.user request) as [u|] eqn:Eu;
    [destruct (is_authenticated u) eqn:Ea|];
    (destruct resp as [answer|];
     [destruct (_ || _);
      [destruct (HttpResponse.getitem answer "Location");
       [cbn [result_bind] in H|discriminate]|]|]);
    injection H as <-; cbn;
    (do 6 (split; [reflexivity|]));
    (split; [eexists _, _, _; repeat split; apply take_length|]);
    (split; [|reflexivity]); intros key;
    first [ split; [intros [= <-]; eauto
                   |intros (u' & [= <-] & _ & <-); reflexivity]
          | split; [discriminate
                   |intros (u' & [= <-] & ? & _); congruence]
          | split; [discriminate|intros (u' & ? & _); discriminate] ].
Qed.

End BuildFacts.

Section RouterMore.

Variable settings : Settings.
Variable get_client_ip : HttpRequest.t -> string.
Variable request_cache_key : Z -> Request -> string.

Local Abbreviation submit' :=
  (create_from_http_request settings get_client_ip request_cache_key).
Local Abbreviation built' := (builds get_client_ip).
Local Abbreviation run' :=
  (submit_all settings get_client_ip request_cache_key).

Lemma create_unbuilt env request resp commit e w :
  from_http_request get_client_ip new_Request (now env) request resp = Raise e ->
  submit' env request resp commit w = (Raise e, w).
Proof.
  intros H. unfold create_from_http_request, bind, lift. now rewrite H.
Qed.

Lemma create_no_commit env request resp r w :
  built' (env, request, resp) r ->
  submit' env request resp false w = (Return tt, w).
Proof.
  intros H. unfold builds in H. cbn [fst snd] in H.
  unfold create_from_http_request, bind, lift. now rewrite H.
Qed.

(** The three strategies are exhaustive. *)
Lemma strategy_cases :
  py_eq_True (REQUEST_USE_CACHE settings) = true
  \/ (py_eq_True (REQUEST_USE_CACHE settings) = false
      /\ REQUEST_BUFFER_SIZE settings = 0)
  \/ (py_eq_True (REQUEST_USE_CACHE settings) = false
      /\ REQUEST_BUFFER_SIZE settings <> 0).
Proof.
  destruct (py_eq_True (REQUEST_USE_CACHE settings)); [now left|right].
  destruct (Z.eq_dec (REQUEST_BUFFER_SIZE settings) 0); auto.
Qed.

(** A call that builds its record and commits returns, or raises the
    database's error. *)
Lemma submit_built_outcome env request resp r w :
  built' (env, request, resp) r ->
  fst (submit' env request resp true w) = Return tt
  \/ (fst (submit' env request resp true w) = Raise DatabaseError
      /\ py_eq_True (REQUEST_USE_CACHE settings) = false
      /\ REQUEST_BUFFER_SIZE settings = 0
      /\ db_up env = false
      /\ table (snd (submit' env request resp true w)) = table w).
Proof.
  intros Hr.
  destruct strategy_cases as [Hc | [[Hc Hs] | [Hc Hs]]].
  - left. now rewrite (submit_cached _ _ _ _ _ _ r).
  - rewrite (submit_immediate _ _ _ _ _ _ r) by assumption.
    destruct (db_up env) eqn:Eup; [now left|right]. repeat split; auto.
  - left. now rewrite (submit_buffered _ _ _ _ _ _ r).
Qed.

(** X1: the call raises [KeyError] exactly when the response is a 301 or a
    302 without a [Location] header; then, and whenever [commit] is false,
    it leaves the buffer, the table, the cache and the trace as they were,
    whatever the strategy. *)
Theorem create_untouched_when_unbuilt env request resp commit (w : World) :
  (fst (create_from_http_request settings get_client_ip request_cache_key
          env request resp commit w) = Raise KeyError
   <-> exists answer,
         resp = Some answer
         /\ (HttpResponse.status_code answer = 301
             \/ HttpResponse.status_code answer = 302)
         /\ HttpResponse.headers answer !! "Location" = None)
  /\ (fst (create_from_http_request settings get_client_ip request_cache_key
             env request resp commit w) = Raise KeyError
      \/ commit = false ->
      snd (create_from_http_request settings get_client_ip request_cache_key
             env request resp commit w) = w).
Proof.
  destruct (from_http_request get_client_ip new_Request (now env) request resp)
    as [r|e] eqn:Hbuild.
  - assert (Hnot : fst (submit' env request resp commit w) <> Raise KeyError).
    { destruct commit.
      - destruct (submit_built_outcome env request resp r w Hbuild)
          as [-> | (-> & _)]; discriminate.
      - now rewrite (create_no_commit _ _ _ r). }
    split.
    + split; [contradiction|]. intros Hex.
      assert (Hraise : from_http_request get_client_ip new_Request (now env)
                         request resp = Raise KeyError)
        by (apply from_http_request_raises; auto).
      congruence.
    + intros [? | ->]; [contradiction|]. now rewrite (create_no_commit _ _ _ r).
  - rewrite (create_unbuilt _ _ _ _ e) by assumption. cbn [fst snd].
    apply from_http_request_raises in Hbuild as [-> Hex].
    split; [|reflexivity]. split; auto.
Qed.

(** One call never leaves the buffer longer than the threshold allows. *)
Lemma submit_buffer_bound env request resp commit w :
  Z.of_nat (length (REQUEST_BUFFER w)) <= Z.max 0 (REQUEST_BUFFER_SIZE settings) ->
  Z.of_nat (length (REQUEST_BUFFER (snd (submit' env request resp commit w))))
  <= Z.max 0 (REQUEST_BUFFER_SIZE settings).
Proof.
  intros Hw.
  destruct (from_http_request get_client_ip new_Request (now env) request resp)
    as [r|e] eqn:Hbuild.
  2:{ now rewrite (create_unbuilt _ _ _ _ e). }
  destruct commit; [|now rewrite (create_no_commit _ _ _ r)].
  destruct strategy_cases as [Hc | [[Hc Hs] | [Hc Hs]]].
  - now rewrite (submit_cached _ _ _ _ _ _ r).
  - rewrite (submit_immediate _ _ _ _ _ _ r) by assumption.
    unfold save, Model_save, bind. now destruct (db_up env).
  - rewrite (submit_buffered _ _ _ _ _ _ r) by assumption. cbn [snd].
    destruct (_ >? _) eqn:E; cbn [REQUEST_BUFFER length]; [lia|].
    pose proof (Zgt_cases (Z.of_nat (length (REQUEST_BUFFER w ++ [r])))
                  (REQUEST_BUFFER_SIZE settings)) as H.
    rewrite E in H. lia.
Qed.

(** X3: the buffer bound is an invariant of every run: if the buffer holds
    at most [max 0 REQUEST_BUFFER_SIZE] records, it still does after any
    calls, whatever the strategy, the exchanges and the database do. *)
Theorem submit_all_buffer_bound (calls : list Call) (w : World) :
  Z.of_nat (length (REQUEST_BUFFER w)) <= Z.max 0 (REQUEST_BUFFER_SIZE settings) ->
  Z.of_nat
    (length (REQUEST_BUFFER
               (submit_all settings get_client_ip request_cache_key calls w)))
  <= Z.max 0 (REQUEST_BUFFER_SIZE settings).
Proof.
  revert w. induction calls as [|[[env request] resp] calls IH]; intros w Hw.
  - exact Hw.
  - rewrite submit_all_cons. apply IH. now apply submit_buffer_bound.
Qed.

(** X4: under the Buffered strategy, while the database accepts every
    insert, no record is lost or duplicated: the table followed by the
    buffer grows by exactly the records built, in order. *)
Theorem buffered_run_conserves_records (calls : list Call)
    (rs : list Request) (w : World) :
  py_eq_True (REQUEST_USE_CACHE settings) = false ->
  REQUEST_BUFFER_SIZE settings <> 0 ->
  Forall2 (builds get_client_ip) calls rs ->
  Forall (fun c : Call => db_up c.1.1 = true) calls ->
  let w' := submit_all settings get_client_ip request_cache_key calls w in
  table w' ++ REQUEST_BUFFER w' = table w ++ REQUEST_BUFFER w ++ rs.
Proof.
  intros Hc Hs Hrs. revert w.
  induction Hrs as [|[[env request] resp] r calls rs Hr Hrs IH];
    intros w Hup w'; subst w'.
  - cbn. now rewrite app_nil_r.
  - inversion Hup as [|? ? Hup1 Hup']; subst. cbn [fst snd] in Hup1.
    rewrite submit_all_cons, (submit_buffered _ _ _ _ _ _ r) by assumption.
    cbn [snd]. rewrite (IH _ Hup'), Hup1.
    destruct (_ >? _); cbn [REQUEST_BUFFER table];
      now rewrite ?app_nil_r, <- ?app_assoc.
Qed.

(** X5: a negative [REQUEST_BUFFER_SIZE] buffers nothing: starting from an
    empty buffer, every call sends its one record in a bulk insert of its
    own, as built, and leaves the buffer empty. *)
Theorem negative_threshold_flushes_each (calls : list Call)
    (rs : list Request) (w : World) :
  py_eq_True (REQUEST_USE_CACHE settings) = false ->
  REQUEST_BUFFER_SIZE settings < 0 ->
  REQUEST_BUFFER w = [] ->
  Forall2 (builds get_client_ip) calls rs ->
  let w' := submit_all settings get_client_ip request_cache_key calls w in
  REQUEST_BUFFER w' = []
  /\ trace w'
     = trace w
       ++ ((fun cr : Call * Request => EvBulkCreate [cr.2] (db_up cr.1.1.1))
             <$> zip calls rs)
  /\ table w'
     = table w
       ++ omap (fun cr : Call * Request =>
                  if db_up cr.1.1.1 then Some cr.2 else None)
            (zip calls rs).
Proof.
  intros Hc Hneg Hw Hrs. revert w Hw.
  induction Hrs as [|[[env request] resp] r calls rs Hr Hrs IH];
    intros w Hw w'; subst w'.
  - cbn. now rewrite Hw, !app_nil_r.
  - rewrite submit_all_cons, (submit_buffered _ _ _ _ _ _ r)
      by (assumption || lia).
    cbn [snd]. rewrite Hw. cbn [app length].
    destruct (_ >? _) eqn:E.
    2:{ pose proof (Zgt_cases (Z.of_nat 1) (REQUEST_BUFFER_SIZE settings)) as H.
        rewrite E in H. lia. }
    edestruct IH as (Hb & Ht & Htab); [|rewrite Hb, Ht, Htab]; [reflexivity|].
    cbn [REQUEST_BUFFER trace table zip zip_with fmap list_fmap omap list_omap
           fst snd].
    destruct (db_up env); cbn; now rewrite <- ?app_assoc.
Qed.

(** X6: under the Immediate strategy every call that finds the database up
    adds one row, in order, and each row went through the rewrite of
    [save]; the buffer and the cache are never touched.  So with IP logging
    off every added row carries the dummy IP, and with user logging off no
    added row carries a user. *)
Theorem immediate_run_persists_rewritten (calls : list Call)
    (rs : list Request) (w : World) :
  py_eq_True (REQUEST_USE_CACHE settings) = false ->
  REQUEST_BUFFER_SIZE settings = 0 ->
  Forall2 (builds get_client_ip) calls rs ->
  let w' := submit_all settings get_client_ip request_cache_key calls w in
  let added :=
    omap (fun cr : Call * Request =>
            if db_up cr.1.1.1 then Some (persisted_row settings cr.2) else None)
      (zip calls rs) in
  table w' = table w ++ added
  /\ REQUEST_BUFFER w' = REQUEST_BUFFER w
  /\ cache w' = cache w
  /\ (REQUEST_LOG_IP settings = false ->
      Forall (fun row => ip row = REQUEST_IP_DUMMY settings) added)
  /\ (REQUEST_LOG_USER settings = false ->
      Forall (fun row => user row = None) added).
Proof.
  intros Hc Hs Hrs w' added.
  assert (Hrun : table w' = table w ++ added
                 /\ REQUEST_BUFFER w' = REQUEST_BUFFER w
                 /\ cache w' = cache w).
  { subst w' added. revert w.
    induction Hrs as [|[[env request] resp] r calls rs Hr Hrs IH]; intros w.
    - cbn. now rewrite app_nil_r.
    - rewrite submit_all_cons, (submit_immediate _ _ _ _ _ _ r) by assumption.
      destruct (IH (snd (save settings r (db_up env) w))) as (Ht & Hb & Hca).
      rewrite Ht, Hb, Hca.
      cbn [zip zip_with omap list_omap fst snd].
      unfold save, Model_save, bind. fold (persisted_row settings r).
      destruct (db_up env); cbn; now rewrite <- ?app_assoc. }
  destruct Hrun as (Ht & Hb & Hca). repeat split; try assumption.
  - intros Hlog. subst added. apply Forall_forall. intros row Hrow.
    apply list_elem_of_omap in Hrow as ([c r] & _ & Hrow).
    cbn in Hrow. destruct (db_up c.1.1); [|discriminate].
    injection Hrow as <-. cbn. unfold save_ip. now rewrite Hlog.
  - intros Hlog. subst added. apply Forall_forall. intros row Hrow.
    apply list_elem_of_omap in Hrow as ([c r] & _ & Hrow).
    cbn in Hrow. destruct (db_up c.1.1); [|discriminate].
    injection Hrow as <-. cbn. unfold save_user. now rewrite Hlog.
Qed.

(** X7: the class method [Request.create_from_http_request] is the manager's
    method with the cache switched off: it never consults
    [REQUEST_USE_CACHE], so with the cache in use it still saves or buffers
    the record and the cache is left as it was. *)
Theorem class_method_ignores_cache env request resp commit (w : World) :
  Request_create_from_http_request settings get_client_ip env request resp
    commit w
  = create_from_http_request (without_cache settings) get_client_ip
      request_cache_key env request resp commit w
  /\ cache (snd (Request_create_from_http_request settings get_client_ip env
                   request resp commit w))
     = cache w.
Proof.
  assert (Heq : Request_create_from_http_request settings get_client_ip env
                  request resp commit w
                = create_from_http_request (without_cache settings)
                    get_client_ip request_cache_key env request resp commit w)
    by reflexivity.
  split; [exact Heq|]. rewrite Heq. clear Heq.
  unfold create_from_http_request, bind, lift.
  destruct (from_http_request _ _ _ _ _) as [r|e]; [|reflexivity].
  destruct commit; [|reflexivity].
  cbn [without_cache REQUEST_USE_CACHE REQUEST_BUFFER_SIZE py_eq_True].
  destruct (_ =? 0).
  - unfold save, Model_save, bind. now destruct (db_up env).
  - cbn [get_buffer set_buffer REQUEST_BUFFER].
    destruct (_ >? _); [|reflexivity].
    unfold try_pass, bulk_create, bind.
    destruct (REQUEST_BUFFER w ++ [r]); [reflexivity|].
    now destruct (db_up env).
Qed.

End RouterMore.

(** * More about the middleware and the cache *)

Section MiddlewareMore.

Variable settings : Settings.
Variable get_client_ip : HttpRequest.t -> string.
Variable request_cache_key : Z -> Request -> string.
Variable patterns_resolve : list string -> string -> bool.
Variable key_matches : string -> string -> bool.

Lemma process_response_unfold env request resp w :
  process_response settings get_client_ip request_cache_key patterns_resolve
    env request resp w
  = if rejected settings patterns_resolve request resp
    then (Return resp, w)
    else bind (create_from_http_request settings get_client_ip
                 request_cache_key env request (Some resp) true)
           (fun _ => ret resp) w.
Proof.
  unfold rejected.
  change (process_response settings get_client_ip request_cache_key
            patterns_resolve env request resp w)
    with ((if rule_method settings request then ret resp
           else if (HttpResponse.status_code resp <? 400)
                   && REQUEST_ONLY_ERRORS settings then ret resp
           else if rule_path settings patterns_resolve request then ret resp
           else if rule_ajax settings request then ret resp
           else if rule_ip settings request then ret resp
           else if rule_username settings request then ret resp
           else bind (create_from_http_request settings get_client_ip
                        request_cache_key env request (Some resp) true)
                  (fun _ => ret resp)) w).
  unfold rule_only_errors.
  rewrite (andb_comm (REQUEST_ONLY_ERRORS settings)).
  destruct (rule_method settings request); [reflexivity|].
  destruct (_ && _); [reflexivity|].
  destruct (rule_path settings patterns_resolve request); [reflexivity|].
  destruct (rule_ajax settings request); [reflexivity|].
  destruct (rule_ip settings request); [reflexivity|].
  destruct (rule_username settings request); reflexivity.
Qed.

(** X8: the middleware hands back the response it was given, or raises.  It
    raises [KeyError] only for an admitted 301 or 302 without [Location],
    leaving the world as it was, and the database's error only under the
    Immediate strategy with the database refusing the row, leaving the table
    as it was.  Nothing else can come out of it. *)
Theorem process_response_outcomes env request resp (w : World) :
  let outcome :=
    process_response settings get_client_ip request_cache_key
      patterns_resolve env request resp w in
  fst outcome = Return resp
  \/ (fst outcome = Raise KeyError
      /\ snd outcome = w
      /\ rejected settings patterns_resolve request resp = false
      /\ (HttpResponse.status_code resp = 301
          \/ HttpResponse.status_code resp = 302)
      /\ HttpResponse.headers resp !! "Location" = None)
  \/ (fst outcome = Raise DatabaseError
      /\ table (snd outcome) = table w
      /\ rejected settings patterns_resolve request resp = false
      /\ py_eq_True (REQUEST_USE_CACHE settings) = false
      /\ REQUEST_BUFFER_SIZE settings = 0
      /\ db_up env = false).
Proof.
  intros outcome. subst outcome. rewrite process_response_unfold.
  destruct (rejected settings patterns_resolve request resp) eqn:Hrej;
    [now left|].
  unfold bind.
  destruct (from_http_request get_client_ip new_Request (now env) request
              (Some resp)) as [r|e] eqn:Hbuild.
  - destruct (submit_built_outcome settings get_client_ip request_cache_key
                env request (Some resp) r w Hbuild)
      as [Hok | (Hraise & Hc & Hs & Hup & Htab)].
    + left. revert Hok.
      destruct (create_from_http_request _ _ _ _ _ _ _ w) as [[[]|e] w'];
        cbn; intros; congruence.
    + right; right. revert Hraise Htab.
      destruct (create_from_http_request _ _ _ _ _ _ _ w) as [[[]|e] w'];
        cbn; intros Hraise Htab; [discriminate|].
      injection Hraise as ->. auto 10.
  - right; left.
    rewrite (create_unbuilt settings get_client_ip request_cache_key
               _ _ _ _ e) by assumption.
    apply from_http_request_raises in Hbuild
      as (-> & answer & [= <-] & Hst & Hloc).
    cbn. auto 10.
Qed.

Lemma py_eq_True_truthy v : py_eq_True v = true -> py_truthy v = true.
Proof.
  destruct v as [|b|z|s]; cbn; try discriminate; [auto|].
  intros H. apply Z.eqb_eq in H. now subst.
Qed.

(** X9: a record set in the cache comes out of the next [persist_cached]
    whose pattern matches its key: with the database up the call returns
    it, the table holds it exactly as it was built (it never goes through
    the rewrite of [save]), and its key is gone from the cache. *)
Theorem cached_record_persisted_as_built env request resp r cache_pattern
    (w : World) :
  py_eq_True (REQUEST_USE_CACHE settings) = true ->
  builds get_client_ip (env, request, resp) r ->
  key_matches (cache_pattern_or_default settings cache_pattern)
    (request_cache_key (nonce env) r) = true ->
  let cached :=
    snd (create_from_http_request settings get_client_ip request_cache_key
           env request resp true w) in
  let outcome := persist_cached settings key_matches cache_pattern true cached in
  exists requests,
    fst outcome = Return requests
    /\ r ∈ requests
    /\ table (snd outcome) = table w ++ requests
    /\ cache (snd outcome) !! request_cache_key (nonce env) r = None.
Proof.
  intros Hc Hr Hkey cached outcome.
  assert (Hcached : cached
                    = {| REQUEST_BUFFER := REQUEST_BUFFER w; table := table w;
                         cache := <[request_cache_key (nonce env) r := (r, 0)]>
                                    (cache w);
                         trace := trace w
                                  ++ [EvCacheSet
                                        (request_cache_key (nonce env) r) r 0] |}).
  { subst cached. now rewrite (submit_cached _ _ _ _ _ _ r). }
  set (pattern := cache_pattern_or_default settings cache_pattern) in *.
  assert (Hin : r ∈ cached_values key_matches pattern (cache cached)).
  { rewrite cached_values_matching. apply list_elem_of_fmap.
    exists (request_cache_key (nonce env) r, (r, 0)). split; [reflexivity|].
    apply elem_of_map_to_list, map_lookup_filter_Some. split; [|exact Hkey].
    rewrite Hcached. cbn. apply lookup_insert_eq. }
  subst outcome.
  rewrite persist_cached_run by now apply py_eq_True_truthy.
  cbn zeta. fold pattern.
  destruct (cached_values key_matches pattern (cache cached)) as [|x l] eqn:E.
  { now apply not_elem_of_nil in Hin. }
  exists (x :: l). cbn [fst snd table cache].
  repeat split; try assumption.
  - now rewrite Hcached.
  - apply map_lookup_filter_None. right. intros e _. cbn. congruence.
Qed.

(** X10: two records whose derived keys coincide share one cache entry: the
    second call replaces the first, the cache ends as if only the second
    call had been made, and the first record is no longer in it. *)
Theorem cache_key_collision_overwrites env1 request1 resp1 r1 env2 request2
    resp2 r2 (w : World) :
  py_eq_True (REQUEST_USE_CACHE settings) = true ->
  builds get_client_ip (env1, request1, resp1) r1 ->
  builds get_client_ip (env2, request2, resp2) r2 ->
  request_cache_key (nonce env1) r1 = request_cache_key (nonce env2) r2 ->
  let both :=
    submit_all settings get_client_ip request_cache_key
      [(env1, request1, resp1); (env2, request2, resp2)] w in
  let second_only :=
    submit_all settings get_client_ip request_cache_key
      [(env2, request2, resp2)] w in
  cache both = cache second_only
  /\ cache both !! request_cache_key (nonce env1) r1 = Some (r2, 0).
Proof.
  intros Hc H1 H2 Hkey both second_only. subst both second_only.
  rewrite !submit_all_cons. cbn [submit_all fold_left].
  rewrite (submit_cached _ _ _ _ _ _ r2) by assumption.
  rewrite (submit_cached _ _ _ _ _ _ r1) by assumption.
  rewrite (submit_cached _ _ _ _ _ _ r2) by assumption.
  cbn [snd cache]. rewrite Hkey. split.
  - apply insert_insert_eq.
  - apply lookup_insert_eq.
Qed.

End MiddlewareMore.

(** * More about the period filters *)

Lemma sum_shift (f : Z -> Z) (l : list Z) a :
  fold_right (fun k acc => f k + acc) a l
  = fold_right (fun k acc => f k + acc) 0 l + a.
Proof. induction l as [|x l IH]; cbn; [lia|]. rewrite IH. lia. Qed.

Lemma days_before_month_succ y m :
  1 <= m ->
  datetime.days_before_month y (m + 1)
  = datetime.days_before_month y m + datetime.days_in_month y m.
Proof.
  intros Hm. unfold datetime.days_before_month.
  replace (m + 1 - 1) with ((m - 1) + 1) by lia.
  rewrite seqZ_app by lia. rewrite fold_right_app.
  replace (1 + (m - 1)) with m by lia.
  change (seqZ m 1) with [m]. cbn [fold_right].
  rewrite sum_shift. lia.
Qed.

Lemma days_before_year_succ y :
  datetime.days_before_year (y + 1)
  = datetime.days_before_year y + (if datetime.is_leap y then 366 else 365).
Proof.
  unfold datetime.days_before_year, datetime.is_leap.
  replace (y + 1 - 1) with y by lia.
  destruct (y mod 4 =? 0) eqn:E4; destruct (y mod 100 =? 0) eqn:E100;
    destruct (y mod 400 =? 0) eqn:E400; cbn;
    rewrite ?Z.eqb_eq, ?Z.eqb_neq in *;
    Z.to_euclidean_division_equations; lia.
Qed.

Lemma days_before_month_13 y :
  datetime.days_before_month y 13 = if datetime.is_leap y then 366 else 365.
Proof.
  unfold datetime.days_before_month.
  change (seqZ 1 (13 - 1)) with [1; 2; 3; 4; 5; 6; 7; 8; 9; 10; 11; 12].
  cbn [fold_right]. unfold datetime.days_in_month. cbn.
  destruct (datetime.is_leap y); reflexivity.
Qed.

Lemma days_in_month_pos y m : 28 <= datetime.days_in_month y m <= 31.
Proof.
  unfold datetime.days_in_month.
  destruct (m =? 2); [destruct (datetime.is_leap y); lia|].
  destruct (_ || _); lia.
Qed.

Lemma days_before_month_mono y a b :
  1 <= a <= b ->
  datetime.days_before_month y a <= datetime.days_before_month y b.
Proof.
  intros [Ha Hab]. replace b with (a + (b - a)) by lia.
  assert (Hn : 0 <= b - a) by lia. revert Hn.
  generalize (b - a). intros n Hn. pattern n.
  apply natlike_ind; [rewrite Z.add_0_r; lia | | exact Hn].
  intros k Hk IH. replace (a + Z.succ k) with ((a + k) + 1) by lia.
  rewrite days_before_month_succ by lia.
  pose proof (days_in_month_pos y (a + k)). lia.
Qed.

(** The day after the last of a month is the first of the next month. *)
Lemma ordinal_of_next_month (d : datetime.t) :
  1 <= datetime.month d <= 12 ->
  datetime.toordinal
    (datetime.replace_day
       (datetime.days_in_month (datetime.year d) (datetime.month d)) d) + 1
  = datetime.toordinal (first_of_next_month d).
Proof.
  intros Hm. unfold first_of_next_month, datetime.toordinal, datetime.ymd2ord.
  cbn [datetime.replace_day datetime.year datetime.month datetime.day].
  destruct (datetime.month d =? 12) eqn:E;
    cbn [datetime.year datetime.month datetime.day].
  - apply Z.eqb_eq in E. rewrite E.
    rewrite days_before_year_succ.
    change (datetime.days_in_month (datetime.year d) 12) with 31.
    pose proof (days_before_month_13 (datetime.year d)) as H13.
    change 13 with (12 + 1) in H13.
    rewrite days_before_month_succ in H13 by lia.
    change (datetime.days_in_month (datetime.year d) 12) with 31 in H13.
    change (datetime.days_before_month (datetime.year d + 1) 1) with 0.
    lia.
  - rewrite days_before_month_succ by lia. lia.
Qed.

Lemma elem_of_filter_time_gte_lt r lo hi (self : QuerySet) :
  r ∈ filter_time_gte_lt lo hi self
  <-> r ∈ self /\ exists t, time r = Some t /\ lo <= t < hi.
Proof.
  unfold filter_time_gte_lt. rewrite !list_elem_of_In, filter_In.
  destruct (time r) as [t|].
  - rewrite andb_true_iff, Z.leb_le, Z.ltb_lt.
    split; intros [? ?]; split; try assumption.
    + exists t. auto.
    + destruct H0 as (t' & [= <-] & ?). lia.
  - split; intros [? ?]; [discriminate|]. destruct H0 as (? & ? & ?).
    discriminate.
Qed.

Lemma elem_of_filter_time_range r lo hi (self : QuerySet) :
  r ∈ filter_time_range lo hi self
  <-> r ∈ self /\ exists t, time r = Some t /\ lo <= t <= hi.
Proof.
  unfold filter_time_range. rewrite !list_elem_of_In, filter_In.
  destruct (time r) as [t|].
  - rewrite andb_true_iff, !Z.leb_le.
    split; intros [? ?]; split; try assumption.
    + exists t. auto.
    + destruct H0 as (t' & [= <-] & ?). lia.
  - split; intros [? ?]; [discriminate|]. destruct H0 as (? & ? & ?).
    discriminate.
Qed.

Section PeriodMore.

Variable strptime : string -> string -> option (Z * Z * Z).

(** X11: [month] called with a date ignores the components and selects the
    rows from the first of that date's month up to, not including, the first
    of the next month, both taken at the date's own time of day (midnight
    for a plain date).  It raises [OverflowError] only when the month is the
    last one a date can hold. *)
Theorem month_of_date_window (self : QuerySet) year month month_format
    (d : datetime.t) :
  1 <= datetime.month d <= 12 ->
  let last_day :=
    datetime.replace_day
      (datetime.days_in_month (datetime.year d) (datetime.month d)) d in
  (datetime.toordinal last_day < datetime.max_ordinal ->
   exists rows,
     RequestQuerySet.month strptime self year month month_format (Some d)
     = Return (Some rows)
     /\ forall r,
          r ∈ rows
          <-> r ∈ self
              /\ exists t, time r = Some t
                           /\ datetime.timestamp (datetime.replace_day 1 d) <= t
                              < datetime.timestamp (first_of_next_month d))
  /\ (datetime.max_ordinal <= datetime.toordinal last_day ->
      RequestQuerySet.month strptime self year month month_format (Some d)
      = Raise OverflowError).
Proof.
  intros Hm last_day. unfold RequestQuerySet.month, RequestQuerySet.month_range.
  fold last_day. unfold datetime.plus_one_day. split.
  - intros Hfit.
    destruct (_ >? _) eqn:E.
    { pose proof (Zgt_cases (datetime.toordinal last_day + 1)
                    datetime.max_ordinal) as H. rewrite E in H. lia. }
    cbn [result_bind]. eexists. split; [reflexivity|]. intros r.
    rewrite elem_of_filter_time_gte_lt.
    assert (Hend : datetime.timestamp last_day + datetime.usec_per_day
                   = datetime.timestamp (first_of_next_month d)).
    { unfold datetime.timestamp. rewrite <- ordinal_of_next_month by assumption.
      fold last_day.
      replace (datetime.usec (first_of_next_month d))
        with (datetime.usec last_day).
      - unfold datetime.usec_per_day. lia.
      - unfold first_of_next_month, last_day.
        now destruct (datetime.month d =? 12). }
    now rewrite Hend.
  - intros Hover.
    destruct (_ >? _) eqn:E; [reflexivity|].
    pose proof (Zgt_cases (datetime.toordinal last_day + 1)
                  datetime.max_ordinal) as H. rewrite E in H. lia.
Qed.

(** X12: [week] never returns rows, and neither does [day] when it is given
    components instead of a date: components that do not parse give [None],
    and components that parse run into the [TypeError] of line 50
    ([date.replace] has no [tzinfo]) or of line 68 (the method descriptor
    [datetime.datetime.date] is called on integers). *)
Theorem week_and_day_return_no_rows (self : QuerySet) :
  (forall year week,
     RequestQuerySet.week strptime self year week = Return None
     \/ RequestQuerySet.week strptime self year week = Raise TypeError)
  /\ (forall year week y m d,
        strptime (year +:+ "-0-" +:+ week) "%Y-%w-%U" = Some (y, m, d) ->
        1 <= y <= 9999 -> 1 <= m <= 12 ->
        1 <= d <= datetime.days_in_month y m ->
        RequestQuerySet.week strptime self year week = Raise TypeError)
  /\ (forall year month day month_format day_format,
        RequestQuerySet.day strptime self year month day month_format
          day_format None = Return None
        \/ RequestQuerySet.day strptime self year month day month_format
             day_format None = Raise TypeError).
Proof.
  split; [|split].
  - intros year week. unfold RequestQuerySet.week, RequestQuerySet.strptime_date.
    destruct (strptime _ _) as [[[y m] d]|]; [|now left].
    cbn [result_bind]. destruct (datetime.date y m d) as [dd|e] eqn:E.
    + now right.
    + unfold datetime.date in E. destruct (_ && _); [discriminate|].
      injection E as <-. now left.
  - intros year week y m d Hparse Hy Hm Hd.
    unfold RequestQuerySet.week, RequestQuerySet.strptime_date.
    rewrite Hparse. cbn [result_bind]. unfold datetime.date.
    replace ((1 <=? y) && (y <=? 9999) && (1 <=? m) && (m <=? 12)
             && (1 <=? d) && (d <=? datetime.days_in_month y m))
      with true; [reflexivity|].
    symmetry. rewrite !andb_true_iff, !Z.leb_le. lia.
  - intros year month day mf df. unfold RequestQuerySet.day.
    destruct (_ && _); [|now right].
    unfold RequestQuerySet.strptime_date.
    destruct (strptime _ _); [now right | now left].
Qed.

(** X13: [this_week] goes through [week], so it never returns rows either,
    whatever the clock reads, while [today] always returns the rows of the
    clock's calendar day, from midnight to the microsecond before the next
    midnight, whatever the clock's time of day. *)
Theorem this_week_returns_no_rows_today_does
    (isocalendar_week : datetime.t -> Z) (utcnow : datetime.t)
    (self : QuerySet) :
  (Conveniences.this_week strptime isocalendar_week utcnow self = Return None
   \/ Conveniences.this_week strptime isocalendar_week utcnow self
      = Raise TypeError)
  /\ exists rows,
       Conveniences.today strptime utcnow self = Return (Some rows)
       /\ forall r,
            r ∈ rows
            <-> r ∈ self
                /\ exists t,
                     time r = Some t
                     /\ (datetime.toordinal utcnow - 1) * datetime.usec_per_day
                        <= t
                        < datetime.toordinal utcnow * datetime.usec_per_day.
Proof.
  split.
  - unfold Conveniences.this_week, RequestQuerySet.week,
      RequestQuerySet.strptime_date.
    destruct (strptime _ _) as [[[y m] d]|]; [|now left].
    cbn [result_bind]. destruct (datetime.date y m d) as [dd|e] eqn:E.
    + now right.
    + unfold datetime.date in E. destruct (_ && _); [discriminate|].
      injection E as <-. now left.
  - eexists. split; [reflexivity|]. intros r.
    rewrite elem_of_filter_time_range.
    unfold datetime.combine_min, datetime.combine_max, datetime.usec_per_day.
    split; intros (? & t & ? & ?); (split; [assumption|]); exists t;
      (split; [assumption|]); lia.
Qed.

(** X14: [this_month] is passed a datetime, so its window is shifted by the
    clock's time of day: a row stamped at midnight of the first of the month
    is left out as soon as the clock is past midnight, and a row stamped at
    midnight of the first of the next month is let in. *)
Theorem this_month_window_is_shifted (utcnow : datetime.t) (self : QuerySet)
    (rows : QuerySet) (early late : Request) :
  1 <= datetime.month utcnow <= 12 ->
  0 < datetime.usec utcnow < datetime.usec_per_day ->
  Conveniences.this_month strptime utcnow self = Return (Some rows) ->
  time early
  = Some ((datetime.toordinal (datetime.replace_day 1 utcnow) - 1)
          * datetime.usec_per_day) ->
  time late
  = Some ((datetime.toordinal (first_of_next_month utcnow) - 1)
          * datetime.usec_per_day) ->
  late ∈ self ->
  (early ∉ rows) /\ late ∈ rows.
Proof.
  intros Hm Husec Hret Hearly Hlate Hin.
  unfold Conveniences.this_month, RequestQuerySet.month,
    RequestQuerySet.month_range, datetime.plus_one_day in Hret.
  destruct (_ >? _); [discriminate|]. cbn [result_bind] in Hret.
  injection Hret as <-.
  pose proof (ordinal_of_next_month utcnow Hm) as Hnext.
  rewrite !elem_of_filter_time_gte_lt. unfold datetime.timestamp.
  cbn [datetime.replace_day datetime.usec]. split.
  - intros (_ & t & Ht & Hlo & _). rewrite Hearly in Ht. injection Ht as <-.
    revert Hlo.
    generalize ((datetime.toordinal (datetime.replace_day 1 utcnow) - 1)
                * datetime.usec_per_day).
    intros base Hlo. clear - Husec Hlo. lia.
  - split; [exact Hin|]. eexists. split; [exact Hlate|].
    rewrite <- Hnext.
    pose proof (days_in_month_pos (datetime.year utcnow)
                  (datetime.month utcnow)) as Hdim.
    unfold datetime.toordinal, datetime.ymd2ord.
    cbn [datetime.replace_day datetime.year datetime.month datetime.day].
    revert Hdim Husec. unfold datetime.usec_per_day.
    generalize (datetime.days_in_month (datetime.year utcnow)
                  (datetime.month utcnow)).
    generalize (datetime.days_before_year (datetime.year utcnow)
                + datetime.days_before_month (datetime.year utcnow)
                    (datetime.month utcnow)).
    generalize (datetime.usec utcnow).
    clear. intros u base dim Hdim Hu. lia.
Qed.

(** X15: for a plain date in a real month, every row [month] selects is a
    row [year] selects for the date's year. *)
Theorem month_within_year (self : QuerySet) (d : datetime.t)
    (rows : QuerySet) :
  1 <= datetime.month d <= 12 ->
  datetime.usec d = 0 ->
  RequestQuerySet.month strptime self None None "%b" (Some d)
  = Return (Some rows) ->
  forall r, r ∈ rows -> r ∈ Conveniences.year self (datetime.year d).
Proof.
  intros Hm Husec Hret r Hr.
  unfold RequestQuerySet.month, RequestQuerySet.month_range,
    datetime.plus_one_day in Hret.
  destruct (_ >? _); [discriminate|]. cbn [result_bind] in Hret.
  injection Hret as <-.
  apply elem_of_filter_time_gte_lt in Hr as (Hin & t & Ht & Hlo & Hhi).
  unfold Conveniences.year. apply elem_of_filter_time_range.
  split; [exact Hin|]. exists t. split; [exact Ht|].
  unfold datetime.timestamp, datetime.toordinal, datetime.ymd2ord in *.
  cbn [datetime.replace_day datetime.year datetime.month datetime.day
         datetime.usec] in *.
  rewrite Husec in *.
  pose proof (days_before_month_mono (datetime.year d) 1 (datetime.month d))
    as Hlow.
  pose proof (days_before_month_mono (datetime.year d)
                (datetime.month d + 1) 13) as Hup.
  rewrite days_before_month_succ in Hup by lia.
  change 13 with (12 + 1) in Hup.
  rewrite (days_before_month_succ _ 12) in Hup by lia.
  change (datetime.days_in_month (datetime.year d) 12) with 31 in Hup.
  change (datetime.days_before_month (datetime.year d) 1) with 0 in *.
  unfold datetime.usec_per_day in *. lia.
Qed.

End PeriodMore.

(** * More about active users *)

(** X16: the keyword arguments of [active_users].  Without any, the call
    never raises, does not look at the clock and returns every user some
    row carries.  With a keyword [timedelta] does not know, it raises
    [TypeError] before any row is looked at. *)
Theorem active_users_keywords (self : QuerySet) (clock : Z) :
  (exists users,
     active_users self clock ∅ = Return users
     /\ forall u, Some u ∈ users <-> exists r, r ∈ self /\ user r = Some u)
  /\ (forall (options : gmap string Z) keyword value,
        options !! keyword = Some value ->
        PyStr.mem keyword datetime.timedelta_keys = false ->
        active_users self clock options = Raise TypeError).
Proof.
  split.
  - eexists. split; [reflexivity|]. intros u. rewrite elem_of_users. split.
    + intros (r & Hr & Hu). apply elem_of_filter_user_notnull in Hr as [? _].
      eauto.
    + intros (r & Hr & Hu). exists r. split; [|exact Hu].
      apply elem_of_filter_user_notnull. split; congruence.
  - intros options keyword value Hk Hno. unfold active_users.
    rewrite bool_decide_eq_false_2.
    2:{ intros ->. now rewrite lookup_empty in Hk. }
    unfold datetime.timedelta.
    replace (forallb _ _) with false; [reflexivity|].
    symmetry. apply not_true_is_false. intros Hall.
    rewrite forallb_forall in Hall.
    specialize (Hall keyword). rewrite Hno in Hall.
    assert (Hin : In keyword (map_to_list options).*1).
    { apply list_elem_of_In, list_elem_of_fmap. exists (keyword, value).
      split; [reflexivity|]. now apply elem_of_map_to_list. }
    specialize (Hall Hin). discriminate.
Qed.

(** X17: a longer window never loses a user, and no window finds a user
    that the call without a window does not find. *)
Theorem active_users_window_monotone (self : QuerySet) (clock : Z)
    (narrow wide : gmap string Z) (delta1 delta2 : Z)
    (users1 users2 all : gset (option Z)) :
  narrow <> ∅ -> wide <> ∅ ->
  datetime.timedelta narrow = Return delta1 ->
  datetime.timedelta wide = Return delta2 ->
  delta1 <= delta2 ->
  active_users self clock narrow = Return users1 ->
  active_users self clock wide = Return users2 ->
  active_users self clock ∅ = Return all ->
  users1 ⊆ users2 /\ users2 ⊆ all.
Proof.
  intros Hn Hw Hd1 Hd2 Hle H1 H2 Hall.
  unfold active_users in *.
  rewrite bool_decide_eq_false_2 in H1 by assumption.
  rewrite bool_decide_eq_false_2 in H2 by assumption.
  rewrite bool_decide_eq_true_2 in Hall by reflexivity.
  rewrite Hd1 in H1. rewrite Hd2 in H2. cbn [result_bind] in *.
  unfold datetime.sub in *.
  destruct (_ && _) in H1; [|discriminate].
  destruct (_ && _) in H2; [|discriminate].
  cbn [result_bind] in *.
  injection H1 as <-. injection H2 as <-. injection Hall as <-.
  split; intros o; rewrite !elem_of_users; intros (r & Hr & Hu); exists r;
    (split; [|exact Hu]);
    apply elem_of_filter_time_gte in Hr as (Hr & t & Ht & Hcut).
  - apply elem_of_filter_time_gte. split; [exact Hr|]. exists t.
    split; [exact Ht|]. lia.
  - exact Hr.
Qed.

(** * The open-session lookups *)

Section OpenSessionFacts.

Variable settings : Settings.
Variable key_matches : string -> string -> bool.
Variable int_of_str : string -> option Z.
Variable execute_raw : RawQuery -> list Request -> list Request.

(** X18: [last_requests_with_open_sessions_from_users] converts the ids
    first, so an id that is no integer raises before the cache is touched.
    When the call returns, the query is bound to the clock and to the
    converted ids, a single id doubled so that the list never has length
    one, and the world is the one [persist_cached] leaves with the default
    pattern: with the cache in use no key under the prefix is left.  When
    the flush raises, so does the call. *)
Theorem open_sessions_flushes_first clock up (user_ids : list pyval)
    (w : World) :
  let outcome :=
    last_requests_with_open_sessions_from_users settings key_matches
      int_of_str clock up user_ids w in
  let flushed := persist_cached settings key_matches None up w in
  (forall e, map_int int_of_str user_ids = Raise e ->
             outcome = (Raise e, w))
  /\ (forall ids, map_int int_of_str user_ids = Return ids ->
        snd outcome = snd flushed
        /\ (forall e, fst flushed = Raise e -> fst outcome = Raise e)
        /\ (forall q, fst outcome = Return q ->
              raw_now q = clock
              /\ length (raw_user_ids q) <> 1%nat
              /\ (forall z, z ∈ raw_user_ids q <-> z ∈ ids)
              /\ (length ids <> 1%nat -> raw_user_ids q = ids)
              /\ (py_truthy (REQUEST_USE_CACHE settings) = true ->
                  forall k,
                    key_matches (REQUEST_CACHE_PREFIX settings +:+ "*") k
                    = true ->
                    cache (snd outcome) !! k = None))).
Proof.
  intros outcome flushed. subst outcome flushed.
  unfold last_requests_with_open_sessions_from_users, bind, lift.
  split.
  - intros e ->. reflexivity.
  - intros ids ->.
    destruct (persist_cached settings key_matches None up w)
      as [[created|e] w'] eqn:Hflush; cbn [fst snd ret].
    + split; [reflexivity|]. split; [discriminate|].
      intros q [= <-]. cbn [raw_now raw_user_ids].
      split; [reflexivity|]. split; [|split; [|split]].
      * destruct ids as [|a [|b ids]]; cbn; discriminate.
      * intros z. destruct ids as [|a [|b ids]]; cbn; [reflexivity| |reflexivity].
        rewrite !list_elem_of_In. cbn. tauto.
      * intros Hlen. destruct ids as [|a [|b ids]]; cbn in *; congruence.
      * intros Huse k Hk.
        rewrite persist_cached_run in Hflush by assumption.
        cbn zeta in Hflush.
        change (cache_pattern_or_default settings None)
          with (REQUEST_CACHE_PREFIX settings +:+ "*") in Hflush.
        assert (Hgone :
                  filter (fun kv => key_matches
                                      (REQUEST_CACHE_PREFIX settings +:+ "*")
                                      kv.1 = false) (cache w) !! k = None).
        { apply map_lookup_filter_None. right. intros x _. cbn. congruence. }
        destruct (cached_values _ _ _) as [|x l]; [|destruct up];
          inversion Hflush; subst; exact Hgone.
    + split; [reflexivity|]. split; [|discriminate].
      intros e' [= <-]. reflexivity.
Qed.

(** X19: [get_open_session_keys_from_users] runs its query after the flush:
    with the cache in use and the database up, the rows the query sees are
    the table followed by the records that were in the cache under the
    prefix, and the keys returned are the session keys of the rows it
    yields, in order. *)
Theorem open_session_keys_see_cached_records clock (user_ids : list pyval)
    ids (w : World) :
  py_truthy (REQUEST_USE_CACHE settings) = true ->
  map_int int_of_str user_ids = Return ids ->
  let outcome :=
    get_open_session_keys_from_users settings key_matches int_of_str
      execute_raw clock true user_ids w in
  let cached :=
    cached_values key_matches (REQUEST_CACHE_PREFIX settings +:+ "*")
      (cache w) in
  exists q,
    fst (last_requests_with_open_sessions_from_users settings key_matches
           int_of_str clock true user_ids w) = Return q
    /\ fst outcome
       = Return (session_key <$> execute_raw q (table w ++ cached))
    /\ table (snd outcome) = table w ++ cached.
Proof.
  intros Huse Hids outcome cached. subst outcome.
  unfold get_open_session_keys_from_users,
    last_requests_with_open_sessions_from_users, bind, lift.
  rewrite Hids, persist_cached_run by assumption. cbn zeta.
  change (cache_pattern_or_default settings None)
    with (REQUEST_CACHE_PREFIX settings +:+ "*").
  fold cached.
  destruct cached as [|x l]; cbn; eexists; rewrite ?app_nil_r;
    repeat split; reflexivity.
Qed.

End OpenSessionFacts.

(** * Search keywords and anonymised addresses *)

(** Splitting at a character and joining with another replaces the one by
    the other. *)
Lemma join_split_replaces old new s :
  PyStr.join (String new EmptyString) (PyStr.split old s)
  = replace_char old new s.
Proof.
  unfold PyStr.join.
  induction s as [|c s IH]; [reflexivity|]. cbn [PyStr.split replace_char].
  destruct (Ascii.eqb c old) eqn:E.
  - destruct (PyStr.split old s) as [|piece rest] eqn:Es.
    + now destruct (split_not_nil old s).
    + rewrite <- IH. reflexivity.
  - destruct (PyStr.split old s) as [|piece rest] eqn:Es.
    + now destruct (split_not_nil old s).
    + rewrite <- IH. destruct rest; reflexivity.
Qed.

Lemma replace_char_length old new s :
  String.length (replace_char old new s) = String.length s.
Proof. induction s as [|c s IH]; cbn; [reflexivity | now rewrite IH]. Qed.

Lemma replace_char_free old new s :
  old <> new -> PyStr.free_of old (replace_char old new s) = true.
Proof.
  intros Hne. induction s as [|c s IH]; [reflexivity|]. cbn.
  rewrite IH, andb_true_r. destruct (Ascii.eqb c old) eqn:E.
  - apply negb_true_iff, Ascii.eqb_neq. congruence.
  - now rewrite E.
Qed.

Section KeywordFacts.

Variable engines_resolve : string -> option (string * gmap string string).

(** X20: the keywords a record reports never hold a plus sign and are as
    long as the engine's raw keywords: every plus has become a blank and
    nothing else has changed. *)
Theorem keywords_have_no_plus referer memo (words : string) :
  fst (keywords engines_resolve referer memo) = Return (Some words) ->
  PyStr.free_of "+" words = true
  /\ exists engine info raw,
       match memo with
       | Some found => found
       | None => engines_resolve (default EmptyString referer)
       end = Some (engine, info)
       /\ info !! "keywords" = Some raw
       /\ words = replace_char "+" " " raw
       /\ String.length words = String.length raw.
Proof.
  unfold keywords. destruct (negb (PyStr.truthy referer)); [discriminate|].
  destruct (match memo with Some _ => _ | None => _ end)
    as [[engine info]|]; [|discriminate].
  destruct (info !! "keywords") as [raw|] eqn:Hraw; [|discriminate].
  cbn [fst]. intros [= <-]. rewrite (join_split_replaces "+" " ").
  split; [now apply replace_char_free|].
  exists engine, info, raw. repeat split; try assumption.
  apply replace_char_length.
Qed.

(** X21: the property is memoised on the instance.  A first read with a
    non-empty referer sets [_keywords]; every later read with a non-empty
    referer returns what the first one returned, even if the referer has
    changed since, and does not ask the resolver again.  An empty or
    missing referer gives [None] and leaves [_keywords] alone. *)
Theorem keywords_are_memoised first later other_resolve :
  PyStr.truthy first = true ->
  PyStr.truthy later = true ->
  let read := keywords engines_resolve first None in
  keywords other_resolve later (snd read) = read
  /\ (forall referer memo,
        PyStr.truthy referer = false ->
        keywords engines_resolve referer memo = (Return None, memo)).
Proof.
  intros Hfirst Hlater read. subst read. split.
  - unfold keywords. rewrite Hfirst, Hlater. cbn [negb].
    destruct (engines_resolve _) as [[engine info]|]; [|reflexivity].
    destruct (info !! "keywords") eqn:E; cbn [snd]; now rewrite E.
  - intros referer memo H. unfold keywords. now rewrite H.
Qed.

End KeywordFacts.


(** * The added properties on concrete inputs *)

Lemma from_http_request_fields_witness :
  time MoreExamples.first_record = Some 10
  /\ response MoreExamples.first_record = 200
  /\ (forall key, user MoreExamples.first_record = Some key <->
        exists u, HttpRequest.user (Examples.get_as_alice "/a" "203.0.113.42")
                  = Some u
                  /\ is_authenticated u = true /\ pk u = key).
Proof.
  destruct (from_http_request_fields Examples.get_client_ip 10
              (Examples.get_as_alice "/a" "203.0.113.42")
              (Some Examples.ok_response) MoreExamples.first_record eq_refl)
    as (Ht & _ & _ & _ & _ & _ & _ & Hu & Hresp).
  repeat split; solve [assumption | apply Hu].
Defined.

Lemma create_untouched_when_unbuilt_witness :
  create_from_http_request (Examples.buffered 1) Examples.get_client_ip
    Examples.request_cache_key (Examples.env_at 10 true)
    (Examples.get "/a" "203.0.113.42")
    (Some MoreExamples.redirect_without_location) true empty_world
  = (Raise KeyError, empty_world).
Proof.
  destruct (create_untouched_when_unbuilt (Examples.buffered 1)
              Examples.get_client_ip Examples.request_cache_key
              (Examples.env_at 10 true) (Examples.get "/a" "203.0.113.42")
              (Some MoreExamples.redirect_without_location) true empty_world)
    as [Hiff Hsame].
  assert (Hraise : fst (create_from_http_request (Examples.buffered 1)
                          Examples.get_client_ip Examples.request_cache_key
                          (Examples.env_at 10 true)
                          (Examples.get "/a" "203.0.113.42")
                          (Some MoreExamples.redirect_without_location) true
                          empty_world)
                   = Raise KeyError).
  { apply Hiff. exists MoreExamples.redirect_without_location.
    repeat split. now right. }
  specialize (Hsame (or_introl Hraise)).
  destruct (create_from_http_request _ _ _ _ _ _ _ _) as [out w'].
  cbn in *. congruence.
Defined.

Lemma submit_all_buffer_bound_witness :
  Z.of_nat
    (length
       (REQUEST_BUFFER
          (submit_all (Examples.buffered 1) Examples.get_client_ip
             Examples.request_cache_key
             [MoreExamples.first_call; MoreExamples.second_call;
              MoreExamples.third_call] empty_world)))
  <= 1.
Proof.
  exact (submit_all_buffer_bound (Examples.buffered 1) Examples.get_client_ip
           Examples.request_cache_key
           [MoreExamples.first_call; MoreExamples.second_call;
            MoreExamples.third_call] empty_world
           ltac:(cbn; lia)).
Defined.

Lemma buffered_run_conserves_records_witness :
  let w' :=
    submit_all (Examples.buffered 1) Examples.get_client_ip
      Examples.request_cache_key
      [MoreExamples.first_call; MoreExamples.second_call_up;
       MoreExamples.third_call] empty_world in
  table w' ++ REQUEST_BUFFER w'
  = [MoreExamples.first_record; MoreExamples.second_record;
     MoreExamples.third_record].
Proof.
  apply (buffered_run_conserves_records (Examples.buffered 1)
           Examples.get_client_ip Examples.request_cache_key
           [MoreExamples.first_call; MoreExamples.second_call_up;
            MoreExamples.third_call]
           [MoreExamples.first_record; MoreExamples.second_record;
            MoreExamples.third_record] empty_world).
  - reflexivity.
  - discriminate.
  - repeat constructor.
  - repeat constructor.
Defined.

Lemma negative_threshold_flushes_each_witness :
  let w' :=
    submit_all (Examples.buffered (-1)) Examples.get_client_ip
      Examples.request_cache_key
      [MoreExamples.first_call; MoreExamples.second_call] empty_world in
  REQUEST_BUFFER w' = []
  /\ trace w'
     = [EvBulkCreate [MoreExamples.first_record] true;
        EvBulkCreate [MoreExamples.second_record] false]
  /\ table w' = [MoreExamples.first_record].
Proof.
  apply (negative_threshold_flushes_each (Examples.buffered (-1))
           Examples.get_client_ip Examples.request_cache_key
           [MoreExamples.first_call; MoreExamples.second_call]
           [MoreExamples.first_record; MoreExamples.second_record]
           empty_world).
  - reflexivity.
  - reflexivity.
  - reflexivity.
  - repeat constructor.
Defined.

Lemma immediate_run_persists_rewritten_witness :
  let w' :=
    submit_all MoreExamples.immediate_private Examples.get_client_ip
      Examples.request_cache_key
      [MoreExamples.first_call; MoreExamples.second_call;
       MoreExamples.third_call] empty_world in
  map (fun row => (path row, ip row, user row)) (table w')
  = [("/a", "1.1.1.1", None); ("/c", "1.1.1.1", None)].
Proof.
  intros w'.
  destruct (immediate_run_persists_rewritten MoreExamples.immediate_private
              Examples.get_client_ip Examples.request_cache_key
              [MoreExamples.first_call; MoreExamples.second_call;
               MoreExamples.third_call]
              [MoreExamples.first_record; MoreExamples.second_record;
               MoreExamples.third_record] empty_world)
    as (Htable & _).
  - reflexivity.
  - reflexivity.
  - repeat constructor.
  - subst w'. rewrite Htable. reflexivity.
Defined.

Lemma cached_record_persisted_as_built_witness :
  let r := Examples.record "/a" "203.0.113.42" 10 in
  let cached :=
    snd (create_from_http_request Examples.cached Examples.get_client_ip
           Examples.request_cache_key (Examples.env_at 10 true)
           (Examples.get "/a" "203.0.113.42") (Some Examples.ok_response)
           true empty_world) in
  let outcome :=
    persist_cached Examples.cached Examples.key_matches None true cached in
  exists requests,
    fst outcome = Return requests
    /\ r ∈ requests
    /\ table (snd outcome) = [] ++ requests
    /\ cache (snd outcome) !! "request_/a_0" = None.
Proof.
  apply (cached_record_persisted_as_built Examples.cached
           Examples.get_client_ip Examples.request_cache_key
           Examples.key_matches (Examples.env_at 10 true)
           (Examples.get "/a" "203.0.113.42") (Some Examples.ok_response)
           (Examples.record "/a" "203.0.113.42" 10) None empty_world);
    reflexivity.
Defined.

Lemma cache_key_collision_overwrites_witness :
  let both :=
    submit_all Examples.cached Examples.get_client_ip
      Examples.request_cache_key
      [(Examples.env_at 10 true, Examples.get "/a" "203.0.113.42",
        Some Examples.ok_response);
       (Examples.env_at 20 true, Examples.get "/a" "203.0.113.7",
        Some Examples.ok_response)] empty_world in
  cache both !! "request_/a_0"
  = Some (Examples.record "/a" "203.0.113.7" 20, 0).
Proof.
  apply (cache_key_collision_overwrites Examples.cached
           Examples.get_client_ip Examples.request_cache_key
           (Examples.env_at 10 true) (Examples.get "/a" "203.0.113.42")
           (Some Examples.ok_response)
           (Examples.record "/a" "203.0.113.42" 10)
           (Examples.env_at 20 true) (Examples.get "/a" "203.0.113.7")
           (Some Examples.ok_response)
           (Examples.record "/a" "203.0.113.7" 20) empty_world);
    reflexivity.
Defined.

Lemma month_of_date_window_witness :
  exists rows,
    RequestQuerySet.month Examples.strptime
      [MoreExamples.at_midnight 2021 1 1; MoreExamples.at_midnight 2021 2 1]
      None None "%b" (Some MoreExamples.mid_january)
    = Return (Some rows)
    /\ forall r,
         r ∈ rows
         <-> r ∈ [MoreExamples.at_midnight 2021 1 1;
                  MoreExamples.at_midnight 2021 2 1]
             /\ exists t,
                  time r = Some t
                  /\ datetime.timestamp
                       (datetime.replace_day 1 MoreExamples.mid_january) <= t
                     < datetime.timestamp
                         (first_of_next_month MoreExamples.mid_january).
Proof.
  apply (month_of_date_window Examples.strptime
           [MoreExamples.at_midnight 2021 1 1; MoreExamples.at_midnight 2021 2 1]
           None None "%b" MoreExamples.mid_january).
  - cbn. lia.
  - reflexivity.
Defined.

Lemma this_month_window_is_shifted_witness :
  exists rows,
    Conveniences.this_month Examples.strptime MoreExamples.one_o_clock
      [MoreExamples.at_midnight 2021 1 1; MoreExamples.at_midnight 2021 2 1]
    = Return (Some rows)
    /\ (MoreExamples.at_midnight 2021 1 1 ∉ rows)
    /\ MoreExamples.at_midnight 2021 2 1 ∈ rows.
Proof.
  eexists. split; [vm_compute; reflexivity|].
  apply (this_month_window_is_shifted Examples.strptime
           MoreExamples.one_o_clock
           [MoreExamples.at_midnight 2021 1 1; MoreExamples.at_midnight 2021 2 1]).
  - cbn. lia.
  - cbn. unfold datetime.usec_per_day. lia.
  - vm_compute. reflexivity.
  - reflexivity.
  - reflexivity.
  - right. left.
Defined.

Lemma month_within_year_witness :
  MoreExamples.at_midnight 2021 1 20
  ∈ Conveniences.year [MoreExamples.at_midnight 2021 1 20] 2021.
Proof.
  apply (month_within_year Examples.strptime
           [MoreExamples.at_midnight 2021 1 20] MoreExamples.mid_january
           [MoreExamples.at_midnight 2021 1 20]).
  - cbn. lia.
  - reflexivity.
  - vm_compute. reflexivity.
  - left.
Defined.

Lemma active_users_window_monotone_witness :
  let rows :=
    [MoreExamples.seen (Some 1) 5; MoreExamples.seen (Some 2) 20;
     MoreExamples.seen (Some 1) 1; MoreExamples.seen None 2] in
  active_users rows (100 * 60000000) {[ "minutes" := 15 ]} = Return {[ Some 1 ]}
  /\ active_users rows (100 * 60000000) {[ "minutes" := 30 ]}
     = Return {[ Some 1; Some 2 ]}
  /\ ({[ Some 1 ]} : gset (option Z)) ⊆ {[ Some 1; Some 2 ]}.
Proof.
  intros rows.
  assert (H1 : active_users rows (100 * 60000000) {[ "minutes" := 15 ]}
               = Return {[ Some 1 ]}) by (vm_compute; reflexivity).
  assert (H2 : active_users rows (100 * 60000000) {[ "minutes" := 30 ]}
               = Return {[ Some 1; Some 2 ]}) by (vm_compute; reflexivity).
  assert (H3 : active_users rows (100 * 60000000) ∅
               = Return {[ Some 1; Some 2 ]}) by (vm_compute; reflexivity).
  split; [exact H1|]. split; [exact H2|].
  apply (active_users_window_monotone rows (100 * 60000000)
           {[ "minutes" := 15 ]} {[ "minutes" := 30 ]}
           (15 * 60000000) (30 * 60000000)
           {[ Some 1 ]} {[ Some 1; Some 2 ]} {[ Some 1; Some 2 ]}).
  - apply map_non_empty_singleton.
  - apply map_non_empty_singleton.
  - vm_compute. reflexivity.
  - vm_compute. reflexivity.
  - lia.
  - exact H1.
  - exact H2.
  - exact H3.
Defined.

Lemma open_session_keys_see_cached_records_witness :
  let r := MoreExamples.first_record in
  let outcome :=
    get_open_session_keys_from_users Examples.cached Examples.key_matches
      MoreExamples.int_of_str MoreExamples.execute_raw 50 true [PyStr "7"]
      (Examples.one_cached r) in
  fst outcome = Return [None] /\ table (snd outcome) = [r].
Proof.
  intros r outcome.
  destruct (open_session_keys_see_cached_records Examples.cached
              Examples.key_matches MoreExamples.int_of_str
              MoreExamples.execute_raw 50 [PyStr "7"] [7]
              (Examples.one_cached r))
    as (q & Hq & Hkeys & Htable).
  - reflexivity.
  - reflexivity.
  - vm_compute in Hq. injection Hq as <-. split.
    + subst outcome. rewrite Hkeys. vm_compute. reflexivity.
    + subst outcome. rewrite Htable. vm_compute. reflexivity.
Defined.

Lemma keywords_have_no_plus_witness :
  fst (keywords MoreExamples.engines_resolve
         (Some "http://www.google.com/search?q=django+request+log") None)
  = Return (Some "django request log")
  /\ PyStr.free_of "+" "django request log" = true.
Proof.
  assert (H : fst (keywords MoreExamples.engines_resolve
                     (Some "http://www.google.com/search?q=django+request+log")
                     None)
              = Return (Some "django request log"))
    by (vm_compute; reflexivity).
  split; [exact H|].
  exact (proj1 (keywords_have_no_plus MoreExamples.engines_resolve _ _ _ H)).
Defined.

Lemma keywords_are_memoised_witness :
  let read :=
    keywords MoreExamples.engines_resolve
      (Some "http://www.google.com/search?q=django+request+log") None in
  keywords (fun _ => None) (Some "http://example.org/") (snd read) = read.
Proof.
  apply (keywords_are_memoised MoreExamples.engines_resolve
           (Some "http://www.google.com/search?q=django+request+log")
           (Some "http://example.org/") (fun _ => None));
    reflexivity.
Defined.


(** * The admission filter *)

Section AdmissionFacts.

Variable settings : Settings.
Variable get_client_ip : HttpRequest.t -> string.
Variable request_cache_key : Z -> Request -> string.
Variable patterns_resolve : list string -> string -> bool.

(** Every response but a redirect without [Location] gives a record. *)
Lemma builds_unless_redirect env request resp :
  redirect_without_location resp = false ->
  exists r, builds get_client_ip (env, request, Some resp) r.
Proof.
  intros Hok. unfold builds. cbn [fst snd].
  destruct (from_http_request get_client_ip new_Request (now env) request
              (Some resp)) as [r|e] eqn:Hbuild; [now exists r|].
  apply from_http_request_raises in Hbuild
    as (_ & answer & [= <-] & Hst & Hloc).
  unfold redirect_without_location in Hok. rewrite Hloc, andb_true_r in Hok.
  apply orb_false_elim in Hok as [H1 H2]. rewrite Z.eqb_neq in H1, H2.
  destruct Hst; contradiction.
Qed.

(** Rule 6 of the middleware rejects whatever rule 6 of the specification
    rejects. *)
Lemma rule_authenticated_username_implies request :
  rule_authenticated_username settings request = true ->
  rule_username settings request = true.
Proof.
  unfold rule_authenticated_username, rule_username.
  destruct (HttpRequest.user request) as [u|]; [|discriminate].
  intros H. now apply andb_prop in H as [_ H].
Qed.

(** C5, as the code has it: [process_response] follows the six admission
    rules, with rule 6 applied to the user name of the request's user
    whether or not that user is authenticated.  A rejected exchange is
    answered with the response and the world is left as it was: nothing is
    saved, buffered or cached.  Whatever the rules of the specification
    reject is rejected, and the only other rejections are of users that are
    not authenticated and whose name is to be ignored.  An exchange no rule
    rejects is handed to [create_from_http_request] with the response and
    [commit] true; unless the response is a redirect without [Location], a
    record [r] is built and the world that results is: [r] set in the cache
    (Cached); the rewritten [r] asked of the database and added to the table
    if it is up (Immediate); [r] appended to the buffer, and the whole
    buffer sent in one bulk insert, added to the table if the database is
    up, and emptied once it is longer than the threshold (Buffered). *)
Theorem process_response_follows_admission env request resp (w : World) :
  let outcome :=
    process_response settings get_client_ip request_cache_key
      patterns_resolve env request resp w in
  (rejected settings patterns_resolve request resp = true ->
   outcome = (Return resp, w))
  /\ (rejected_as_specified settings patterns_resolve request resp = true ->
      rejected settings patterns_resolve request resp = true)
  /\ (rejected settings patterns_resolve request resp = true ->
      rejected_as_specified settings patterns_resolve request resp = false ->
      exists u,
        HttpRequest.user request = Some u
        /\ is_authenticated u = false
        /\ PyStr.mem (username u) (REQUEST_IGNORE_USERNAME settings) = true)
  /\ (rejected settings patterns_resolve request resp = false ->
      outcome
      = bind (create_from_http_request settings get_client_ip
                request_cache_key env request (Some resp) true)
          (fun _ => ret resp) w)
  /\ (rejected settings patterns_resolve request resp = false ->
      redirect_without_location resp = false ->
      exists r,
        builds get_client_ip (env, request, Some resp) r
        /\ (py_eq_True (REQUEST_USE_CACHE settings) = true ->
            outcome
            = (Return resp,
               {| REQUEST_BUFFER := REQUEST_BUFFER w;
                  table := table w;
                  cache := <[request_cache_key (nonce env) r := (r, 0)]>
                             (cache w);
                  trace := trace w
                           ++ [EvCacheSet (request_cache_key (nonce env) r)
                                 r 0] |}))
        /\ (py_eq_True (REQUEST_USE_CACHE settings) = false ->
            REQUEST_BUFFER_SIZE settings = 0 ->
            outcome
            = (if db_up env then Return resp else Raise DatabaseError,
               {| REQUEST_BUFFER := REQUEST_BUFFER w;
                  table := if db_up env
                           then table w ++ [persisted_row settings r]
                           else table w;
                  cache := cache w;
                  trace := trace w
                           ++ [EvSave (persisted_row settings r) (db_up env)] |}))
        /\ (py_eq_True (REQUEST_USE_CACHE settings) = false ->
            REQUEST_BUFFER_SIZE settings <> 0 ->
            outcome
            = (Return resp,
               if Z.of_nat (length (REQUEST_BUFFER w ++ [r]))
                  >? REQUEST_BUFFER_SIZE settings
               then {| REQUEST_BUFFER := [];
                       table := if db_up env
                                then table w ++ (REQUEST_BUFFER w ++ [r])
                                else table w;
                       cache := cache w;
                       trace := trace w
                                ++ [EvBulkCreate (REQUEST_BUFFER w ++ [r])
                                      (db_up env)] |}
               else {| REQUEST_BUFFER := REQUEST_BUFFER w ++ [r];
                       table := table w;
                       cache := cache w;
                       trace := trace w |}))).
Proof.
  intros outcome. subst outcome. rewrite process_response_unfold.
  split; [now intros ->|].
  split.
  { unfold rejected, rejected_as_specified. intros H.
    apply orb_prop in H as [H | H]; [now rewrite H|].
    rewrite (rule_authenticated_username_implies _ H). apply orb_true_r. }
  split.
  { unfold rejected, rejected_as_specified. intros Hcode Hspec.
    apply orb_false_elim in Hspec as [Hfive Hsix]. rewrite Hfive in Hcode.
    cbn [orb] in Hcode. revert Hcode Hsix.
    unfold rule_username, rule_authenticated_username.
    destruct (HttpRequest.user request) as [u|]; [|discriminate].
    intros Hname Hauth. rewrite Hname, andb_true_r in Hauth. eauto. }
  split; [now intros ->|].
  intros -> Hok.
  destruct (builds_unless_redirect env request resp Hok) as [r Hr].
  exists r. split; [exact Hr|]. unfold bind.
  split; [|split].
  - intros Hcache. now rewrite (submit_cached _ _ _ _ _ _ r).
  - intros Hcache Hsize.
    rewrite (submit_immediate _ _ _ _ _ _ r) by assumption.
    unfold save, Model_save, bind. fold (persisted_row settings r).
    now destruct (db_up env).
  - intros Hcache Hsize. now rewrite (submit_buffered _ _ _ _ _ _ r).
Qed.

End AdmissionFacts.

(** Two exchanges that pass the six rules of the specification and leave no
    record.  A 302 without [Location] is admitted and the call raises
    [KeyError] with the world as it was; the anonymous user, whose name is
    to be ignored, is rejected by the middleware. *)
Lemma admitted_exchange_without_record :
  (rejected_as_specified Examples.immediate Examples.patterns_resolve
     (Examples.get "/a" "203.0.113.42") MoreExamples.redirect_without_location
   = false
   /\ process_response Examples.immediate Examples.get_client_ip
        Examples.request_cache_key Examples.patterns_resolve
        (Examples.env_at 10 true) (Examples.get "/a" "203.0.113.42")
        MoreExamples.redirect_without_location empty_world
      = (Raise KeyError, empty_world))
  /\ (rejected_as_specified MoreExamples.ignoring_anonymous
        Examples.patterns_resolve
        (MoreExamples.get_anonymous "/a" "203.0.113.42") Examples.ok_response
      = false
      /\ process_response MoreExamples.ignoring_anonymous
           Examples.get_client_ip Examples.request_cache_key
           Examples.patterns_resolve (Examples.env_at 10 true)
           (MoreExamples.get_anonymous "/a" "203.0.113.42")
           Examples.ok_response empty_world
         = (Return Examples.ok_response, empty_world)).
Proof. vm_compute. repeat split; reflexivity. Qed.

Lemma process_response_follows_admission_witness :
  process_response (Examples.buffered 1) Examples.get_client_ip
    Examples.request_cache_key Examples.patterns_resolve
    (Examples.env_at 10 true) (Examples.get "/admin/users" "203.0.113.42")
    Examples.ok_response empty_world
  = (Return Examples.ok_response, empty_world)
  /\ process_response (Examples.buffered 1) Examples.get_client_ip
       Examples.request_cache_key Examples.patterns_resolve
       (Examples.env_at 10 true) (Examples.get "/a" "203.0.113.42")
       Examples.ok_response empty_world
     = (Return Examples.ok_response,
        {| REQUEST_BUFFER := [Examples.record "/a" "203.0.113.42" 10];
           table := []; cache := ∅; trace := [] |}).
Proof.
  split.
  - apply (process_response_follows_admission (Examples.buffered 1)
             Examples.get_client_ip Examples.request_cache_key
             Examples.patterns_resolve (Examples.env_at 10 true)
             (Examples.get "/admin/users" "203.0.113.42")
             Examples.ok_response empty_world).
    reflexivity.
  - destruct (process_response_follows_admission (Examples.buffered 1)
                Examples.get_client_ip Examples.request_cache_key
                Examples.patterns_resolve (Examples.env_at 10 true)
                (Examples.get "/a" "203.0.113.42")
                Examples.ok_response empty_world) as (_ & _ & _ & _ & H).
    destruct (H eq_refl eq_refl) as (r & Hr & _ & _ & Hbuf).
    unfold builds in Hr. vm_compute in Hr. injection Hr as <-.
    rewrite (Hbuf eq_refl ltac:(discriminate)). reflexivity.
Defined.
